(** * A shallow embedding of [public/server.js]

    The server is an Express application that proxies contact and deal
    requests to the HubSpot CRM client and asks the OpenAI client for a
    customer summary.  This development embeds the helpers and the route
    handlers of [server.js] and proves the properties of the specification
    about them.

    - JavaScript values are the inductive type [jsval].  An object is
      the list of its own properties, keys distinct, in the order the
      engine enumerates them.  Numbers are the integers that are
      doubles; fractions, [NaN] and the infinities are left
      out.
    - A handler is a term of the free monad [prog]: it returns, throws, or
      awaits an external call and continues with the call's outcome.
      [try_catch] is the [try { ... } catch (err) { ... }] block.
    - [run] plays a handler against a script of outcomes and yields the
      calls the handler made, in order, together with its completion. *)

From Stdlib Require Import ZArith List String Ascii Bool Lia.
From Stdlib Require Import DecimalString.
Import ListNotations.

Local Open Scope string_scope.
Local Open Scope Z_scope.

(* ===================================================================== *)
(** ** JavaScript values *)
(* ===================================================================== *)

Module JS.

#[warnings="-register-all"]
Inductive jsval : Type :=
| JUndefined
| JNull
| JBool (b : bool)
| JNum (n : Z)
| JStr (s : string)
| JArr (items : list jsval)
| JObj (fields : list (string * jsval)).

(** [!v] is [negb (truthy v)]: [undefined], [null], [false], [0] and the
    empty string are falsy; arrays and objects are always truthy. *)
Definition truthy (v : jsval) : bool :=
  match v with
  | JUndefined | JNull => false
  | JBool b => b
  | JNum n => negb (n =? 0)
  | JStr s => negb (String.eqb s EmptyString)
  | JArr _ | JObj _ => true
  end.

Definition nullish (v : jsval) : bool :=
  match v with
  | JUndefined | JNull => true
  | _ => false
  end.

(** [a || b] *)
Definition js_or (a b : jsval) : jsval := if truthy a then a else b.

Fixpoint lookup (k : string) (fs : list (string * jsval)) : jsval :=
  match fs with
  | [] => JUndefined
  | (k', v) :: rest => if String.eqb k k' then v else lookup k rest
  end.

(** The value of [v.k] for a [v] that is neither [undefined] nor [null].
    None of the names read by the server ([results], [body], [id],
    [properties], [email], [dealname], [contactId], [toObjectId],
    [statusCode], [response], [message], [choices], [content]) is a
    built-in property of a string, number, boolean or array, so the read
    gives [undefined] on those. *)
Definition field (v : jsval) (k : string) : jsval :=
  match v with
  | JObj fs => lookup k fs
  | _ => JUndefined
  end.

(** [v?.k] *)
Definition opt_field (v : jsval) (k : string) : jsval :=
  if nullish v then JUndefined else field v k.

(** The [TypeError] raised by a property read on [undefined] or [null]:
    an [Error] object, of which the server reads [message] only. *)
Definition type_error (v : jsval) (k : string) : jsval :=
  JObj [("message",
         JStr ("Cannot read properties of "
               ++ (match v with JNull => "null" | _ => "undefined" end)
               ++ " (reading '" ++ k ++ "')"))].

(** [v.k], which throws on [undefined] and [null]. *)
Definition get (v : jsval) (k : string) : jsval + jsval :=
  if nullish v then inl (type_error v k) else inr (field v k).

Definition string_of_Z (n : Z) : string :=
  NilZero.string_of_int (Z.to_int n).

Fixpoint join (sep : string) (parts : list string) : string :=
  match parts with
  | [] => EmptyString
  | [p] => p
  | p :: rest => p ++ sep ++ join sep rest
  end.

(** *** [Number.prototype.toString]

    A number is held as the integer it equals.  Below [2^53] every integer
    is a number of its own and prints its digits.  From [2^53] on the
    numbers are the doubles [m * 2^e] with a 53-bit [m]; such a number
    prints the shortest digits that read back as the same double, the
    closest ones if there is a choice, followed by zeros, and from
    [10^21] on in exponent form. *)

Definition pow10 (p : nat) : Z := 10 ^ Z.of_nat p.

(** The integer [c] reads back as the double [x], for [x >= 2^53]: it lies
    within half a gap of [x], the ends counting when the significand of
    [x] is even.  The gap below a power of two is half the gap above.  The
    bounds are doubled to stay among the integers. *)
Definition reads_back (x c : Z) : bool :=
  let e := Z.log2 x - 52 in
  let m := Z.shiftr x e in
  let above := 2 ^ e in
  let below := if m =? 2 ^ 52 then 2 ^ (e - 1) else 2 ^ e in
  if Z.even m
  then (2 * x - below <=? 2 * c) && (2 * c <=? 2 * x + above)
  else (2 * x - below <? 2 * c) && (2 * c <? 2 * x + above).

(** The multiple of the largest power of ten, at most [10^p], that reads
    back as [x], with the exponent of that power: the closest of the two
    multiples around [x], the one with the even last digit in a tie. *)
Fixpoint shortest (x : Z) (p : nat) : Z * nat :=
  let unit := pow10 p in
  let down := (x / unit) * unit in
  let up := down + unit in
  let found :=
    match reads_back x down, reads_back x up with
    | true, true =>
        if 2 * (x - down) <? unit then Some down
        else if unit <? 2 * (x - down) then Some up
        else if Z.even (x / unit) then Some down else Some up
    | true, false => Some down
    | false, true => Some up
    | false, false => None
    end in
  match found with
  | Some c => (c, p)
  | None =>
      match p with
      | O => (x, O)
      | S p' => shortest x p'
      end
  end.

(** The digits of a positive number. *)
Definition digits_of (x : Z) : string :=
  if x <? 2 ^ 53 then string_of_Z x
  else
    match shortest x (Z.to_nat (Z.log2 x)) with
    | (c, p) =>
        let all := string_of_Z c in
        if Nat.leb (String.length all) 21 then all
        else
          match string_of_Z (c / pow10 p) with
          | String d more =>
              String d (match more with
                        | EmptyString => EmptyString
                        | _ => "." ++ more
                        end)
              ++ "e+" ++ string_of_Z (Z.of_nat (String.length all - 1))
          | EmptyString => all
          end
    end.

Definition Number_toString (n : Z) : string :=
  if n =? 0 then "0"
  else if n <? 0 then "-" ++ digits_of (- n)
  else digits_of n.

Fixpoint has_key (k : string) (fs : list (string * jsval)) : bool :=
  match fs with
  | [] => false
  | (k', _) :: rest => String.eqb k k' || has_key k rest
  end.

(** The [TypeError] of a conversion to a primitive that finds no method
    to call. *)
Definition cannot_convert : jsval :=
  JObj [("message", JStr "Cannot convert object to primitive value")].

(** The strings of a list of conversions, or the first throw. *)
Fixpoint sequence (rs : list (jsval + string)) : jsval + list string :=
  match rs with
  | [] => inr []
  | inl e :: _ => inl e
  | inr s :: rest =>
      match sequence rest with
      | inl e => inl e
      | inr ss => inr (s :: ss)
      end
  end.

(** [String(v)], which can throw.  An array prints its elements joined by
    commas, with [undefined] and [null] elements printed as the empty
    string.  An object prints [[object Object]] through the [toString] it
    inherits; an object with a property of its own called [toString] has
    no callable [toString] (no value of this type is callable) and the
    inherited [valueOf] returns the object, so the conversion throws. *)
Fixpoint String_ (v : jsval) : jsval + string :=
  match v with
  | JUndefined => inr "undefined"
  | JNull => inr "null"
  | JBool true => inr "true"
  | JBool false => inr "false"
  | JNum n => inr (Number_toString n)
  | JStr s => inr s
  | JArr items =>
      match sequence (map (fun x => if nullish x then inr EmptyString
                                    else String_ x) items) with
      | inl e => inl e
      | inr parts => inr (join "," parts)
      end
  | JObj fields =>
      if has_key "toString" fields then inl cannot_convert
      else inr "[object Object]"
  end.

(** [v[i]], which throws on [undefined] and [null].  A string indexes its
    characters and an object reads the property named by the index. *)
Definition get_index (v : jsval) (i : nat) : jsval + jsval :=
  if nullish v then inl (type_error v (string_of_Z (Z.of_nat i)))
  else inr (match v with
            | JArr items => nth i items JUndefined
            | JStr s => match String.get i s with
                        | Some c => JStr (String c EmptyString)
                        | None => JUndefined
                        end
            | JObj fs => lookup (string_of_Z (Z.of_nat i)) fs
            | _ => JUndefined
            end).

(** The [TypeError] raised by calling a method the value does not have. *)
Definition not_a_function (what : string) : jsval :=
  JObj [("message", JStr (what ++ " is not a function"))].

(** *** [JSON.stringify(v, null, 2)] *)

Definition nl : string := String (ascii_of_nat 10) EmptyString.
Definition dquote : string := String (ascii_of_nat 34) EmptyString.

Definition hex_digit (n : nat) : ascii :=
  nth n ["0"; "1"; "2"; "3"; "4"; "5"; "6"; "7"; "8"; "9";
         "a"; "b"; "c"; "d"; "e"; "f"]%char "0"%char.

(** One character of a quoted JSON string. *)
Definition json_escape (c : ascii) : string :=
  let n := nat_of_ascii c in
  if Nat.eqb n 34 then "\" ++ dquote
  else if Nat.eqb n 92 then "\\"
  else if Nat.eqb n 8 then "\b"
  else if Nat.eqb n 9 then "\t"
  else if Nat.eqb n 10 then "\n"
  else if Nat.eqb n 12 then "\f"
  else if Nat.eqb n 13 then "\r"
  else if Nat.ltb n 32 then
    "\u00" ++ String (hex_digit (Nat.div n 16))
                (String (hex_digit (Nat.modulo n 16)) EmptyString)
  else String c EmptyString.

Definition json_quote (s : string) : string :=
  dquote ++ String.concat EmptyString (map json_escape (list_ascii_of_string s))
         ++ dquote.

(** The text of [v] at the indentation [ind], or [None] where
    [JSON.stringify] gives [undefined].  An [undefined] array element is
    written [null]; an [undefined] property is left out. *)
Fixpoint json (ind : string) (v : jsval) : option string :=
  match v with
  | JUndefined => None
  | JNull => Some "null"
  | JBool true => Some "true"
  | JBool false => Some "false"
  | JNum n => Some (Number_toString n)
  | JStr s => Some (json_quote s)
  | JArr items =>
      let ind' := ind ++ "  " in
      let partial :=
        map (fun x => match json ind' x with
                      | Some s => s
                      | None => "null"
                      end) items in
      match partial with
      | [] => Some "[]"
      | _ => Some ("[" ++ nl ++ ind' ++ join ("," ++ nl ++ ind') partial
                       ++ nl ++ ind ++ "]")
      end
  | JObj fields =>
      let ind' := ind ++ "  " in
      let partial :=
        (fix members (fs : list (string * jsval)) : list string :=
           match fs with
           | [] => []
           | (k, x) :: rest =>
               match json ind' x with
               | Some s => (json_quote k ++ ": " ++ s) :: members rest
               | None => members rest
               end
           end) fields in
      match partial with
      | [] => Some "{}"
      | _ => Some ("{" ++ nl ++ ind' ++ join ("," ++ nl ++ ind') partial
                       ++ nl ++ ind ++ "}")
      end
  end.

(** [`${JSON.stringify(v, null, 2)}`] inside a template literal. *)
Definition JSON_stringify (v : jsval) : string :=
  match json EmptyString v with
  | Some s => s
  | None => "undefined"
  end.

End JS.
Import JS.

(* ===================================================================== *)
(** ** Helpers of [server.js] *)
(* ===================================================================== *)

(** [extractListResults(apiResponse)].  The reads are written with [get],
    as in the source, so a throw would show up as [inl]. *)
Definition extractListResults (apiResponse : jsval) : jsval + list jsval :=
  if negb (truthy apiResponse) then inr []
  else
    match get apiResponse "results" with
    | inl e => inl e
    | inr (JArr rs) => inr rs
    | inr _ =>
        match get apiResponse "body" with
        | inl e => inl e
        | inr body =>
            if truthy body then
              match get body "results" with
              | inl e => inl e
              | inr (JArr rs) => inr rs
              | inr _ => inr []
              end
            else inr []
        end
    end.

(** The list-results normalizer as the specification words it: the
    top-level [results] when it is an array, else the nested
    [body.results] when that is an array, else the empty list. *)
Definition spec_list_results (r : jsval) : list jsval :=
  match field r "results" with
  | JArr rs => rs
  | _ =>
      match field (field r "body") "results" with
      | JArr rs => rs
      | _ => []
      end
  end.


(* ===================================================================== *)
(** ** External calls and the handler monad *)
(* ===================================================================== *)

(** The operations of the two external clients that the server awaits,
    with the arguments it passes. *)
Inductive call : Type :=
| ContactsGetPage
    (limit after properties propertiesWithHistory associations archived : jsval)
| ContactsCreate (input : jsval)
| ContactsGetById (contactId properties : jsval)
| ContactsAssociationsGetAll (contactId toObjectType : jsval)
| DealsGetPage
    (limit after properties propertiesWithHistory associations archived : jsval)
| DealsCreate (input : jsval)
| DealsGetById (dealId properties : jsval)
| DealsAssociationsCreate (dealId toObjectType toObjectId associationSpec : jsval)
| ChatCompletionsCreate (params : jsval).

(** How the promise of an external call settles. *)
Inductive outcome : Type :=
| Resolved (v : jsval)
| Rejected (err : jsval).

Inductive prog (A : Type) : Type :=
| Ret (a : A)
| Throw (err : jsval)
| Await (c : call) (k : outcome -> prog A).

Arguments Ret {A} a.
Arguments Throw {A} err.
Arguments Await {A} c k.

Fixpoint bind {A B : Type} (p : prog A) (f : A -> prog B) : prog B :=
  match p with
  | Ret a => f a
  | Throw e => Throw e
  | Await c k => Await c (fun o => bind (k o) f)
  end.

Notation "x <- p ;; q" := (bind p (fun x => q))
  (at level 61, p at next level, right associativity).

(** [try { p } catch (err) { h err }] *)
Fixpoint try_catch {A : Type} (p : prog A) (h : jsval -> prog A) : prog A :=
  match p with
  | Ret a => Ret a
  | Throw e => h e
  | Await c k => Await c (fun o => try_catch (k o) h)
  end.

(** [await c]: the resolved value, or the rejection thrown. *)
Definition await (c : call) : prog jsval :=
  Await c (fun o => match o with
                    | Resolved v => Ret v
                    | Rejected e => Throw e
                    end).

Definition lift {A : Type} (r : jsval + A) : prog A :=
  match r with
  | inl e => Throw e
  | inr a => Ret a
  end.

(** How a handler stands once the script of outcomes has been played. *)
Inductive completion (A : Type) : Type :=
| Returned (a : A)
| Threw (err : jsval)
| Pending.

Arguments Returned {A} a.
Arguments Threw {A} err.
Arguments Pending {A}.

(** [run p script] answers the calls of [p] with the outcomes of [script],
    in order.  It yields the calls made, the completion, and the outcomes
    that were never asked for. *)
Fixpoint run {A : Type} (p : prog A) (script : list outcome)
  : list call * completion A * list outcome :=
  match p with
  | Ret a => ([], Returned a, script)
  | Throw e => ([], Threw e, script)
  | Await c k =>
      match script with
      | [] => ([c], Pending, [])
      | o :: rest =>
          match run (k o) rest with
          | (cs, r, unread) => (c :: cs, r, unread)
          end
      end
  end.

(* ===================================================================== *)
(** ** Express requests and responses *)
(* ===================================================================== *)

(** [req.body] as [express.json()] leaves it, [req.params], and the clock
    reading that [new Date().toISOString()] gives the health check. *)
Record request : Type := {
  req_body : jsval;
  req_params : list (string * jsval);
  req_now : string
}.

(** What the handler passed to [res.status(..)] and to [res.json(..)]. *)
Record response : Type := {
  statusCode : jsval;
  body : jsval
}.

(** [res.json(b)], with Express's default status. *)
Definition res_json (b : jsval) : response :=
  {| statusCode := JNum 200; body := b |}.

(** [res.status(s).json(b)] *)
Definition res_status_json (s : jsval) (b : jsval) : response :=
  {| statusCode := s; body := b |}.

(** [handleHubSpotError(err, res, message)].  The [console.error] line is
    left out: logging is not part of the response. *)
Definition handleHubSpotError (err : jsval) (message : string) : response :=
  let details :=
    js_or (js_or (opt_field (opt_field err "response") "body")
                 (opt_field err "message"))
          (JStr "Unknown HubSpot error") in
  res_status_json (js_or (opt_field err "statusCode") (JNum 500))
    (JObj [("error", JStr message); ("details", details)]).

(** [r.k || r.body?.k], the expression every single-record handler uses
    for [id] and for [properties]. *)
Definition top_or_body (r : jsval) (k : string) : prog jsval :=
  top <- lift (get r k) ;;
  if truthy top then Ret top
  else b <- lift (get r "body") ;; Ret (opt_field b k).

(** [{ id: r.id || r.body?.id, properties: r.properties || r.body?.properties }] *)
Definition id_and_properties (r : jsval) : prog jsval :=
  id <- top_or_body r "id" ;;
  properties <- top_or_body r "properties" ;;
  Ret (JObj [("id", id); ("properties", properties)]).

Definition strs (l : list string) : jsval := JArr (map JStr l).

Definition contact_properties : jsval :=
  strs ["firstname"; "lastname"; "email"; "phone"; "address"; "jobtitle";
        "company"].

Definition deal_properties : jsval :=
  strs ["dealname"; "amount"; "dealstage"; "pipeline"].

(* ===================================================================== *)
(** ** Route handlers *)
(* ===================================================================== *)

(** [GET /health] *)
Definition get_health (req : request) : prog response :=
  Ret (res_json (JObj [("status", JStr "Server is running");
                       ("timestamp", JStr (req_now req))])).

(** [GET /api/contacts] *)
Definition get_api_contacts (req : request) : prog response :=
  try_catch
    (apiResponse <- await (ContactsGetPage (JNum 50) JUndefined
                             contact_properties JUndefined JUndefined
                             (JBool false)) ;;
     results <- lift (extractListResults apiResponse) ;;
     Ret (res_json (JObj [("results", JArr results)])))
    (fun err =>
       Ret (handleHubSpotError err "Error fetching contacts from HubSpot")).

(** [POST /api/contacts] *)
Definition post_api_contacts (req : request) : prog response :=
  try_catch
    (properties <- lift (get (js_or (req_body req) (JObj [])) "properties") ;;
     if negb (truthy properties) || negb (truthy (field properties "email"))
     then
       Ret (res_status_json (JNum 400)
              (JObj [("error",
                      JStr "properties.email is required to create a contact")]))
     else
       createResponse <-
         await (ContactsCreate (JObj [("properties", properties)])) ;;
       contact <- id_and_properties createResponse ;;
       Ret (res_status_json (JNum 201) contact))
    (fun err =>
       Ret (handleHubSpotError err "Error creating contact in HubSpot")).

(** [GET /api/deals] *)
Definition get_api_deals (req : request) : prog response :=
  try_catch
    (apiResponse <- await (DealsGetPage (JNum 50) JUndefined
                             deal_properties JUndefined JUndefined
                             (JBool false)) ;;
     results <- lift (extractListResults apiResponse) ;;
     Ret (res_json (JObj [("results", JArr results)])))
    (fun err =>
       Ret (handleHubSpotError err "Error fetching deals from HubSpot")).

Definition associationSpec : jsval :=
  JArr [JObj [("associationCategory", JStr "HUBSPOT_DEFINED");
              ("associationTypeId", JNum 3)]].

(** [POST /api/deals] *)
Definition post_api_deals (req : request) : prog response :=
  try_catch
    (let b := js_or (req_body req) (JObj []) in
     dealProperties <- lift (get b "dealProperties") ;;
     contactId <- lift (get b "contactId") ;;
     if negb (truthy dealProperties)
        || negb (truthy (field dealProperties "dealname"))
     then
       Ret (res_status_json (JNum 400)
              (JObj [("error", JStr "dealProperties.dealname is required")]))
     else if negb (truthy contactId)
     then
       Ret (res_status_json (JNum 400)
              (JObj [("error",
                      JStr "contactId is required to associate the deal")]))
     else
       createResponse <-
         await (DealsCreate (JObj [("properties", dealProperties)])) ;;
       dealId <- top_or_body createResponse "id" ;;
       dealPropertiesCreated <- top_or_body createResponse "properties" ;;
       contactIdString <- lift (String_ contactId) ;;
       _ <- await (DealsAssociationsCreate dealId (JStr "contacts")
                     (JStr contactIdString) associationSpec) ;;
       Ret (res_status_json (JNum 201)
              (JObj [("id", dealId); ("properties", dealPropertiesCreated)])))
    (fun err =>
       Ret (handleHubSpotError err
              "Error creating deal or associating it with contact")).

(** [arr.map(f)] with a callback that may throw: the elements are visited
    in order and the first throw ends the walk. *)
Fixpoint mapM (f : jsval -> prog jsval) (items : list jsval)
  : prog (list jsval) :=
  match items with
  | [] => Ret []
  | a :: rest => x <- f a ;; xs <- mapM f rest ;; Ret (x :: xs)
  end.

(** [assocResults.map((a) => a.toObjectId).filter(Boolean)]; only an array
    has a [map] method. *)
Definition toObjectIds (assocResults : jsval) : prog (list jsval) :=
  match assocResults with
  | JArr items =>
      ids <- mapM (fun a => lift (get a "toObjectId")) items ;;
      Ret (filter truthy ids)
  | _ => Throw (not_a_function "assocResults.map")
  end.

(** The loop [for (const id of dealIds) { ... deals.push({..}) }], started
    with the deals pushed so far. *)
Fixpoint fetch_deals (dealIds : list jsval) (deals : list jsval)
  : prog (list jsval) :=
  match dealIds with
  | [] => Ret deals
  | id :: rest =>
      deal <- await (DealsGetById id deal_properties) ;;
      d <- id_and_properties deal ;;
      fetch_deals rest (deals ++ [d])
  end.

(** [GET /api/contacts/:contactId/deals] *)
Definition get_api_contacts_deals (req : request) : prog response :=
  contactId <- lift (get (JObj (req_params req)) "contactId") ;;
  try_catch
    (associations <-
       await (ContactsAssociationsGetAll contactId (JStr "deals")) ;;
     results <- lift (get associations "results") ;;
     let assocResults := js_or results (JArr []) in
     dealIds <- toObjectIds assocResults ;;
     match dealIds with
     | [] => Ret (res_json (JObj [("results", JArr [])]))
     | _ =>
         deals <- fetch_deals dealIds [] ;;
         Ret (res_json (JObj [("results", JArr deals)]))
     end)
    (fun err =>
       Ret (handleHubSpotError err
              "Error fetching deals for specific contact from HubSpot")).

(** [getContactFromHubSpot(contactId)] *)
Definition getContactFromHubSpot (contactId : jsval) : prog jsval :=
  contact <- await (ContactsGetById contactId contact_properties) ;;
  id_and_properties contact.

(** [getDealsForContactFromHubSpot(contactId)] *)
Definition getDealsForContactFromHubSpot (contactId : jsval)
  : prog (list jsval) :=
  associations <-
    await (ContactsAssociationsGetAll contactId (JStr "deals")) ;;
  results <- lift (get associations "results") ;;
  let assocResults := js_or results (JArr []) in
  dealIds <- toObjectIds assocResults ;;
  match dealIds with
  | [] => Ret []
  | _ => fetch_deals dealIds []
  end.

(** The client built at start-up: [null] unless [OPENAI_API_KEY] is a
    non-empty string. *)
Inductive OpenAI : Type := NewOpenAI (apiKey : string).

Definition openai_of_env (OPENAI_API_KEY : option string) : option OpenAI :=
  match OPENAI_API_KEY with
  | Some key => if String.eqb key EmptyString then None
                else Some (NewOpenAI key)
  | None => None
  end.

(** The template literal of the summary prompt. *)
Definition prompt (contact deals : jsval) : string :=
  nl ++
"You are helping Breezy, a smart home company, understand a customer's relationship with them.

Customer (contact):
" ++ JSON_stringify contact ++ "

Deals (subscriptions):
" ++ JSON_stringify deals ++ "

Please:
1) Summarize this customer's relationship with Breezy in 3–4 sentences.
2) Suggest the next best marketing or sales action Breezy should take.
Keep it concise and non-technical.
".

(** [POST /api/ai/customer-summary] *)
Definition post_api_ai_customer_summary (openai : option OpenAI)
  (req : request) : prog response :=
  contactId <- lift (get (js_or (req_body req) (JObj [])) "contactId") ;;
  if negb (truthy contactId) then
    Ret (res_status_json (JNum 400)
           (JObj [("error", JStr "contactId is required")]))
  else
    match openai with
    | None =>
        Ret (res_status_json (JNum 500)
               (JObj [("error",
                       JStr "AI not configured. Set OPENAI_API_KEY in your .env to enable this endpoint.")]))
    | Some _ =>
        try_catch
          (contact <- getContactFromHubSpot contactId ;;
           deals <- getDealsForContactFromHubSpot contactId ;;
           completion <-
             await (ChatCompletionsCreate
                      (JObj [("model", JStr "gpt-4o");
                             ("messages",
                              JArr [JObj [("role", JStr "user");
                                          ("content",
                                           JStr (prompt contact (JArr deals)))]])])) ;;
           choices <- lift (get completion "choices") ;;
           choice <- lift (get_index choices 0) ;;
           message <- lift (get choice "message") ;;
           summary <- lift (get message "content") ;;
           Ret (res_json (JObj [("summary", summary)])))
          (fun err =>
             Ret (res_status_json (JNum 500)
                    (JObj [("error", JStr "Failed to generate AI insight");
                           ("details", js_or (opt_field err "message") err)])))
    end.

(** The routes registered with [app.get] and [app.post]. *)
Inductive route : Type :=
| GET_health
| GET_api_contacts
| POST_api_contacts
| GET_api_deals
| POST_api_deals
| GET_api_contacts_deals
| POST_api_ai_customer_summary.

Definition app (openai : option OpenAI) (r : route) (req : request)
  : prog response :=
  match r with
  | GET_health => get_health req
  | GET_api_contacts => get_api_contacts req
  | POST_api_contacts => post_api_contacts req
  | GET_api_deals => get_api_deals req
  | POST_api_deals => post_api_deals req
  | GET_api_contacts_deals => get_api_contacts_deals req
  | POST_api_ai_customer_summary => post_api_ai_customer_summary openai req
  end.

(* ===================================================================== *)
(** ** The specification's vocabulary *)
(* ===================================================================== *)

(** The normalized record of a single-item response: each of [id] and
    [properties] from the top level or, failing that, from [body]. *)
Definition normalized (r : jsval) : jsval :=
  JObj [("id", js_or (field r "id") (opt_field (field r "body") "id"));
        ("properties",
         js_or (field r "properties")
               (opt_field (field r "body") "properties"))].

(** The response to an upstream failure as the specification words it:
    the status code of the external error when it has one, else 500; the
    context message; the external error's payload, or else its message. *)
Definition upstream_error (err : jsval) (context : string) : response :=
  {| statusCode :=
       if truthy (opt_field err "statusCode")
       then opt_field err "statusCode" else JNum 500;
     body :=
       JObj [("error", JStr context);
             ("details",
              if truthy (opt_field (opt_field err "response") "body")
              then opt_field (opt_field err "response") "body"
              else if truthy (opt_field err "message")
                   then opt_field err "message"
                   else JStr "Unknown HubSpot error")] |}.

(** The summary handler's answer to anything thrown in its [try] block. *)
Definition summary_error (err : jsval) : response :=
  {| statusCode := JNum 500;
     body :=
       JObj [("error", JStr "Failed to generate AI insight");
             ("details",
              if truthy (opt_field err "message")
              then opt_field err "message" else err)] |}.

Definition bad_request (message : string) : response :=
  {| statusCode := JNum 400; body := JObj [("error", JStr message)] |}.

(** The deal ids of a list of association results: each [toObjectId],
    falsy ones dropped. *)
Definition deal_ids (assocResults : list jsval) : list jsval :=
  filter truthy (map (fun a => field a "toObjectId") assocResults).

Definition get_deal (id : jsval) : call := DealsGetById id deal_properties.

(** A mapping from names to strings. *)
Definition string_map (v : jsval) : bool :=
  match v with
  | JObj fs =>
      forallb (fun kv => match snd kv with JStr _ => true | _ => false end) fs
  | _ => false
  end.

Definition is_string (v : jsval) : bool :=
  match v with JStr _ => true | _ => false end.

(** The canonical shape of a record: a string [id] and a [properties]
    mapping of strings. *)
Definition canonical (v : jsval) : bool :=
  is_string (field v "id") && string_map (field v "properties").

(** The two shapes in which the external client hands over a record with a
    non-empty identifier: the fields at the top level, or under [body]. *)
Definition record_at (v : jsval) : bool :=
  canonical v && truthy (field v "id").

Definition top_level (r : jsval) : Prop := record_at r = true.

Definition nested (r : jsval) : Prop :=
  field r "id" = JUndefined /\ field r "properties" = JUndefined
  /\ record_at (field r "body") = true.

(** A response object: anything but [undefined] and [null]. *)
Definition present (v : jsval) : Prop := nullish v = false.

(** The association response lists the edges [items]: its [results] is
    that array, or is falsy and there are none. *)
Definition lists_associations (associations : jsval) (items : list jsval)
  : Prop :=
  present associations
  /\ js_or (field associations "results") (JArr []) = JArr items
  /\ Forall present items.

Definition get_associations (contactId : jsval) : call :=
  ContactsAssociationsGetAll contactId (JStr "deals").

Definition contactId_param (req : request) : jsval :=
  lookup "contactId" (req_params req).

Definition get_contacts_page : call :=
  ContactsGetPage (JNum 50) JUndefined contact_properties JUndefined
    JUndefined (JBool false).

Definition get_deals_page : call :=
  DealsGetPage (JNum 50) JUndefined deal_properties JUndefined JUndefined
    (JBool false).

Definition get_contact (contactId : jsval) : call :=
  ContactsGetById contactId contact_properties.

(** The single-turn chat completion request of the summary handler. *)
Definition complete_prompt (contact : jsval) (deals : list jsval) : call :=
  ChatCompletionsCreate
    (JObj [("model", JStr "gpt-4o");
           ("messages",
            JArr [JObj [("role", JStr "user");
                        ("content", JStr (prompt contact (JArr deals)))]])]).


(** The body of a request, as the handlers destructure it. *)
Definition body_of (req : request) : jsval := js_or (req_body req) (JObj []).

Definition email_of (req : request) : jsval :=
  field (field (body_of req) "properties") "email".

Definition dealname_of (req : request) : jsval :=
  field (field (body_of req) "dealProperties") "dealname".

Definition contactId_of (req : request) : jsval :=
  field (body_of req) "contactId".

(** The handler consumes the whole [script] and answers [resp]. *)
Definition responds (p : prog response) (script : list outcome)
  (resp : response) : Prop :=
  exists calls, run p script = (calls, Returned resp, []).

(** A record in one of the two shapes the external client uses. *)
Definition shaped (r : jsval) : Prop := top_level r \/ nested r.

(* ===================================================================== *)
(** ** Start-up *)
(* ===================================================================== *)

(** The three variables the server reads from [process.env]; an unset
    variable reads [undefined]. *)
Record process_env : Type := {
  env_PORT : option string;
  env_HUBSPOT_ACCESS_TOKEN : option string;
  env_OPENAI_API_KEY : option string
}.

Definition env_value (v : option string) : jsval :=
  match v with
  | Some s => JStr s
  | None => JUndefined
  end.

(** How the top level of [server.js] ends: [process.exit(1)], or
    [app.listen(PORT)] with the summarization client in place. *)
Inductive boot : Type :=
| Exited (code : Z)
| Listening (PORT : jsval) (openai : option OpenAI).

(** The top level of [server.js], lines 13 to 35 and 380. *)
Definition boot_server (e : process_env) : boot :=
  let PORT := js_or (env_value (env_PORT e)) (JNum 3001) in
  if negb (truthy (env_value (env_HUBSPOT_ACCESS_TOKEN e))) then Exited 1
  else Listening PORT (openai_of_env (env_OPENAI_API_KEY e)).

(* ===================================================================== *)
(** ** Kinds of calls *)
(* ===================================================================== *)

(** Every call [p] can make, whatever the outcomes, satisfies [P]. *)
Fixpoint only_calls {A : Type} (P : call -> bool) (p : prog A) : Prop :=
  match p with
  | Ret _ => True
  | Throw _ => True
  | Await c k => P c = true /\ forall o, only_calls P (k o)
  end.

(** The calls that read from the CRM. *)
Definition is_read (c : call) : bool :=
  match c with
  | ContactsGetPage _ _ _ _ _ _ => true
  | ContactsGetById _ _ => true
  | ContactsAssociationsGetAll _ _ => true
  | DealsGetPage _ _ _ _ _ _ => true
  | DealsGetById _ _ => true
  | _ => false
  end.

(** The calls that write to the CRM. *)
Definition is_write (c : call) : bool :=
  match c with
  | ContactsCreate _ => true
  | DealsCreate _ => true
  | DealsAssociationsCreate _ _ _ _ => true
  | _ => false
  end.

Definition no_call (c : call) : bool := false.

(** A program without a [try] of its own: a rejected call is thrown on. *)
Fixpoint strict {A : Type} (p : prog A) : Prop :=
  match p with
  | Ret _ => True
  | Throw _ => True
  | Await c k =>
      (forall e, k (Rejected e) = Throw e)
      /\ forall v, strict (k (Resolved v))
  end.

(** The routes registered with [app.post] on the CRM objects. *)
Definition creates (r : route) : bool :=
  match r with
  | POST_api_contacts => true
  | POST_api_deals => true
  | _ => false
  end.

Definition calls_of {A : Type} (t : list call * completion A * list outcome)
  : list call := fst (fst t).

Definition completion_of {A : Type}
  (t : list call * completion A * list outcome) : completion A :=
  snd (fst t).

(** The deal ids that the first outcome of a script lists, when it is an
    association response with an array of results. *)
Definition listed_ids (script : list outcome) : list jsval :=
  match script with
  | Resolved associations :: _ =>
      match field associations "results" with
      | JArr items => deal_ids items
      | _ => []
      end
  | _ => []
  end.

(* ===================================================================== *)
(** ** Sample requests and responses *)
(* ===================================================================== *)

Module Sample.

Definition request_of (b : jsval) : request :=
  {| req_body := b; req_params := [("contactId", JStr "7")];
     req_now := "2025-01-01T12:00:00.000Z" |}.

Definition annual_plan : jsval := JObj [("dealname", JStr "Annual Plan")].

Definition deal_for_contact : request :=
  request_of (JObj [("dealProperties", annual_plan); ("contactId", JNum 42)]).

Definition deal_without_contact : request :=
  request_of (JObj [("dealProperties", annual_plan)]).

Definition deal_without_name : request :=
  request_of (JObj [("dealProperties", JObj [("amount", JStr "10")]);
                    ("contactId", JStr "42")]).

Definition deal_with_empty_contact : request :=
  request_of (JObj [("dealProperties", annual_plan); ("contactId", JStr "")]).

Definition deal_with_empty_name : request :=
  request_of (JObj [("dealProperties", JObj [("dealname", JStr "")]);
                    ("contactId", JStr "42")]).

Definition contact_with_empty_email : request :=
  request_of (JObj [("properties", JObj [("email", JStr "")])]).

Definition contact_with_email : request :=
  request_of (JObj [("properties", JObj [("email", JStr "ada@example.com")])]).

Definition empty_body : request := request_of (JObj []).

Definition no_body : request := request_of JUndefined.

Definition summary_of_contact : request :=
  request_of (JObj [("contactId", JStr "7")]).

Definition summary_of_zero : request :=
  request_of (JObj [("contactId", JNum 0)]).

Definition created_deal : jsval :=
  JObj [("id", JStr "9001"); ("properties", annual_plan)].

Definition wrapped_deal : jsval :=
  JObj [("body", JObj [("id", JStr "9002"); ("properties", annual_plan)])].

Definition created_contact : jsval :=
  JObj [("id", JStr "7");
        ("properties", JObj [("email", JStr "ada@example.com")])].


Definition associated : jsval := JObj [("results", JArr [])].

(** Three edges, the second without a target. *)
Definition edges : list jsval :=
  [JObj [("toObjectId", JStr "9001")];
   JObj [("toObjectId", JStr "")];
   JObj [("toObjectId", JStr "9002")]].

Definition associations : jsval := JObj [("results", JArr edges)].

Definition not_found : jsval :=
  JObj [("statusCode", JNum 404);
        ("message", JStr "Not Found");
        ("response", JObj [("body", JObj [("category", JStr "OBJECT_NOT_FOUND")])])].

Definition openai : OpenAI := NewOpenAI "sk-test".

(** An object that [String] cannot convert. *)
Definition unprintable : jsval := JObj [("toString", JStr "x")].

Definition deal_for_unprintable : request :=
  request_of (JObj [("dealProperties", annual_plan);
                    ("contactId", unprintable)]).


Definition completion : jsval :=
  JObj [("id", JStr "chatcmpl-1");
        ("choices",
         JArr [JObj [("index", JNum 0);
                     ("message",
                      JObj [("role", JStr "assistant");
                            ("content", JStr "A loyal customer.")])]])].

Definition empty_completion : jsval := JObj [("choices", JArr [])].

(** The association list under [body], as some client versions wrap it. *)
Definition wrapped_associations : jsval := JObj [("body", associations)].

Definition string_results : jsval := JObj [("results", JStr "none")].

Definition env_without_key : process_env :=
  {| env_PORT := None; env_HUBSPOT_ACCESS_TOKEN := Some "pat-na1";
     env_OPENAI_API_KEY := Some EmptyString |}.

Definition env_complete : process_env :=
  {| env_PORT := Some "8080"; env_HUBSPOT_ACCESS_TOKEN := Some "pat-na1";
     env_OPENAI_API_KEY := Some "sk-test" |}.

End Sample.

(* ===================================================================== *)
(** ** Values *)
(* ===================================================================== *)

Local Open Scope list_scope.

Lemma truthy_not_nullish v : truthy v = true -> nullish v = false.
Proof. destruct v; simpl; congruence. Qed.

Lemma falsy_field v k : truthy v = false -> field v k = JUndefined.
Proof. destruct v; simpl; congruence. Qed.

Lemma truthy_field_object v k : truthy (field v k) = true -> truthy v = true.
Proof. destruct v; simpl; congruence. Qed.

Lemma js_or_not_nullish a b :
  nullish b = false -> nullish (js_or a b) = false.
Proof.
  unfold js_or; intros Hb.
  destruct (truthy a) eqn:Ha; [apply truthy_not_nullish|]; assumption.
Qed.

Lemma get_body_of req k : get (body_of req) k = inr (field (body_of req) k).
Proof.
  unfold get, body_of. rewrite js_or_not_nullish; reflexivity.
Qed.

(** Printed numbers: below [2^53] the digits; from there on the shortest
    digits that read back, as for [2^60], [2^63], [2^64] and [2^70]; the
    exponent form from [10^21] on. *)
Example Number_toString_samples :
  map Number_toString
    [0; 42; -7; 2 ^ 53 - 1; 2 ^ 53; 2 ^ 60; 2 ^ 63; - 2 ^ 64; 10 ^ 20;
     10 ^ 21; 2 ^ 70]
  = ["0"; "42"; "-7"; "9007199254740991"; "9007199254740992";
     "1152921504606847000"; "9223372036854776000"; "-18446744073709552000";
     "100000000000000000000"; "1e+21"; "1.1805916207174113e+21"]%string.
Proof. vm_compute. reflexivity. Qed.

Lemma Number_toString_small n :
  0 < n < 2 ^ 53 -> Number_toString n = string_of_Z n.
Proof.
  intros [Hpos Hlt]. unfold Number_toString, digits_of.
  destruct (Z.eqb_spec n 0) as [-> | _]; [lia |].
  destruct (Z.ltb_spec n 0); [lia |].
  destruct (Z.ltb_spec n (2 ^ 53)); [reflexivity | lia].
Qed.

(** Strings, numbers, booleans, [undefined] and [null] always convert. *)
Lemma String_primitive v :
  (forall items, v <> JArr items) ->
  (forall fields, v <> JObj fields) ->
  exists text, String_ v = inr text.
Proof.
  intros Ha Ho. destruct v as [| | [|] | n | s | items | fields];
    try (eexists; reflexivity).
  - now elim (Ha items).
  - now elim (Ho fields).
Qed.

(** C3: for every external list response the normalizer never throws and
    returns the top-level [results] when it is an array, otherwise the
    nested [body.results] when it is an array, otherwise the empty list. *)
Theorem extractListResults_spec (apiResponse : jsval) :
  extractListResults apiResponse = inr (spec_list_results apiResponse).
Proof.
  unfold extractListResults, spec_list_results, get.
  destruct (truthy apiResponse) eqn:Ht; simpl.
  - rewrite (truthy_not_nullish _ Ht).
    destruct (field apiResponse "results") eqn:Hr; try reflexivity;
      destruct (truthy (field apiResponse "body")) eqn:Hb;
      try (rewrite (truthy_not_nullish _ Hb);
           destruct (field (field apiResponse "body") "results");
           reflexivity);
      rewrite (falsy_field _ "results" Hb); reflexivity.
  - rewrite (falsy_field _ "results" Ht), (falsy_field _ "body" Ht).
    reflexivity.
Qed.

(* ===================================================================== *)
(** ** Running binds and try blocks *)
(* ===================================================================== *)

Lemma run_bind {A B : Type} (p : prog A) (f : A -> prog B) :
  forall script,
    run (bind p f) script =
    match run p script with
    | (cs, Returned a, rest) =>
        match run (f a) rest with
        | (cs', r, rest') => (cs ++ cs', r, rest')
        end
    | (cs, Threw e, rest) => (cs, Threw e, rest)
    | (cs, Pending, rest) => (cs, Pending, rest)
    end.
Proof.
  induction p as [a | e | c k IH]; intros script; simpl.
  - destruct (run (f a) script) as [[cs r] rest]; reflexivity.
  - reflexivity.
  - destruct script as [| o rest]; [reflexivity |].
    rewrite IH.
    destruct (run (k o) rest) as [[cs r] rest'].
    destruct r as [a | e |]; try reflexivity.
    destruct (run (f a) rest') as [[cs' r'] rest'']; reflexivity.
Qed.

Lemma run_try_catch {A : Type} (p : prog A) (h : jsval -> prog A) :
  forall script,
    run (try_catch p h) script =
    match run p script with
    | (cs, Threw e, rest) =>
        match run (h e) rest with
        | (cs', r, rest') => (cs ++ cs', r, rest')
        end
    | other => other
    end.
Proof.
  induction p as [a | e | c k IH]; intros script; simpl.
  - reflexivity.
  - destruct (run (h e) script) as [[cs r] rest]; reflexivity.
  - destruct script as [| o rest]; [reflexivity |].
    rewrite IH.
    destruct (run (k o) rest) as [[cs r] rest'].
    destruct r as [a | e |]; try reflexivity.
    destruct (run (h e) rest') as [[cs' r'] rest'']; reflexivity.
Qed.

(* ===================================================================== *)
(** ** Single-record normalization *)
(* ===================================================================== *)

Lemma top_or_body_ok r k :
  nullish r = false ->
  top_or_body r k = Ret (js_or (field r k) (opt_field (field r "body") k)).
Proof.
  intros Hr. unfold top_or_body, get, js_or. rewrite Hr. simpl.
  destruct (truthy (field r k)); reflexivity.
Qed.

Lemma id_and_properties_ok r :
  nullish r = false -> id_and_properties r = Ret (normalized r).
Proof.
  intros Hr. unfold id_and_properties.
  rewrite !top_or_body_ok by assumption. reflexivity.
Qed.

Lemma handleHubSpotError_spec err context :
  handleHubSpotError err context = upstream_error err context.
Proof.
  unfold handleHubSpotError, upstream_error, res_status_json, js_or.
  destruct (truthy (opt_field (opt_field err "response") "body")) eqn:Hb;
    [rewrite Hb; reflexivity |].
  destruct (truthy (opt_field err "message")) eqn:Hm;
    cbv iota; rewrite ?Hm; reflexivity.
Qed.

(* ===================================================================== *)
(** ** [POST /api/deals] *)
(* ===================================================================== *)

(** Unfolds the reads of the request body at the head of a handler. *)
Ltac read_body req :=
  change (js_or (req_body req) (JObj [])) with (body_of req);
  cbv zeta; rewrite !get_body_of; cbn [lift bind].

Lemma post_api_deals_no_dealname req script :
  truthy (dealname_of req) = false ->
  run (post_api_deals req) script
  = ([], Returned (bad_request "dealProperties.dealname is required"), script).
Proof.
  unfold dealname_of; intros Hd.
  unfold post_api_deals. read_body req.
  rewrite Hd, orb_true_r. reflexivity.
Qed.

Lemma post_api_deals_no_contactId req script :
  truthy (dealname_of req) = true ->
  truthy (contactId_of req) = false ->
  run (post_api_deals req) script
  = ([],
     Returned (bad_request "contactId is required to associate the deal"),
     script).
Proof.
  unfold dealname_of, contactId_of; intros Hd Hc.
  unfold post_api_deals. read_body req.
  rewrite Hd, (truthy_field_object _ _ Hd), Hc. reflexivity.
Qed.

Lemma post_api_deals_settled req cr text o script :
  truthy (dealname_of req) = true ->
  truthy (contactId_of req) = true ->
  nullish cr = false ->
  String_ (contactId_of req) = inr text ->
  run (post_api_deals req) (Resolved cr :: o :: script)
  = ([DealsCreate
        (JObj [("properties", field (body_of req) "dealProperties")]);
      DealsAssociationsCreate
        (field (normalized cr) "id") (JStr "contacts")
        (JStr text) associationSpec],
     Returned
       match o with
       | Resolved _ => res_status_json (JNum 201) (normalized cr)
       | Rejected err =>
           upstream_error err
             "Error creating deal or associating it with contact"
       end,
     script).
Proof.
  unfold dealname_of, contactId_of; intros Hd Hc Hcr Hs.
  unfold post_api_deals. read_body req.
  rewrite Hd, (truthy_field_object _ _ Hd), Hc. cbn [negb orb].
  cbn [await bind try_catch run].
  rewrite !top_or_body_ok by assumption. cbn [bind].
  rewrite Hs. cbn [lift bind try_catch run].
  destruct o as [ar | err]; cbn [bind try_catch run].
  - reflexivity.
  - rewrite handleHubSpotError_spec. reflexivity.
Qed.

Lemma post_api_deals_unprintable req cr thrown script :
  truthy (dealname_of req) = true ->
  truthy (contactId_of req) = true ->
  nullish cr = false ->
  String_ (contactId_of req) = inl thrown ->
  run (post_api_deals req) (Resolved cr :: script)
  = ([DealsCreate
        (JObj [("properties", field (body_of req) "dealProperties")])],
     Returned (upstream_error thrown
                 "Error creating deal or associating it with contact"),
     script).
Proof.
  unfold dealname_of, contactId_of; intros Hd Hc Hcr Hs.
  unfold post_api_deals. read_body req.
  rewrite Hd, (truthy_field_object _ _ Hd), Hc. cbn [negb orb].
  cbn [await bind try_catch run].
  rewrite !top_or_body_ok by assumption. cbn [bind].
  rewrite Hs. cbn [lift bind try_catch run].
  rewrite handleHubSpotError_spec. reflexivity.
Qed.

Lemma post_api_deals_uncreated req cr script :
  truthy (dealname_of req) = true ->
  truthy (contactId_of req) = true ->
  nullish cr = true ->
  run (post_api_deals req) (Resolved cr :: script)
  = ([DealsCreate
        (JObj [("properties", field (body_of req) "dealProperties")])],
     Returned (upstream_error (type_error cr "id")
                 "Error creating deal or associating it with contact"),
     script).
Proof.
  unfold dealname_of, contactId_of; intros Hd Hc Hcr.
  unfold post_api_deals. read_body req.
  rewrite Hd, (truthy_field_object _ _ Hd), Hc. cbn [negb orb].
  cbn [await bind try_catch run].
  unfold top_or_body, get. rewrite Hcr. cbn [lift bind try_catch run].
  rewrite handleHubSpotError_spec. reflexivity.
Qed.

Lemma post_api_deals_create_rejected req err script :
  truthy (dealname_of req) = true ->
  truthy (contactId_of req) = true ->
  run (post_api_deals req) (Rejected err :: script)
  = ([DealsCreate
        (JObj [("properties", field (body_of req) "dealProperties")])],
     Returned (upstream_error err
                 "Error creating deal or associating it with contact"),
     script).
Proof.
  unfold dealname_of, contactId_of; intros Hd Hc.
  unfold post_api_deals. read_body req.
  rewrite Hd, (truthy_field_object _ _ Hd), Hc. cbn [negb orb].
  cbn [await bind try_catch run].
  rewrite handleHubSpotError_spec. reflexivity.
Qed.

(* ===================================================================== *)
(** ** Validation in the other handlers *)
(* ===================================================================== *)

Lemma post_api_contacts_no_email req script :
  truthy (email_of req) = false ->
  run (post_api_contacts req) script
  = ([],
     Returned (bad_request "properties.email is required to create a contact"),
     script).
Proof.
  unfold email_of; intros He.
  unfold post_api_contacts. read_body req.
  rewrite He, orb_true_r. reflexivity.
Qed.

Lemma summary_no_contactId openai req script :
  truthy (contactId_of req) = false ->
  run (post_api_ai_customer_summary openai req) script
  = ([], Returned (bad_request "contactId is required"), script).
Proof.
  unfold contactId_of; intros Hc.
  unfold post_api_ai_customer_summary. read_body req.
  rewrite Hc. reflexivity.
Qed.

Lemma summary_not_configured req script :
  truthy (contactId_of req) = true ->
  run (post_api_ai_customer_summary None req) script
  = ([],
     Returned
       {| statusCode := JNum 500;
          body :=
            JObj [("error",
                   JStr "AI not configured. Set OPENAI_API_KEY in your .env to enable this endpoint.")] |},
     script).
Proof.
  unfold contactId_of; intros Hc.
  unfold post_api_ai_customer_summary. read_body req.
  rewrite Hc. reflexivity.
Qed.

(* ===================================================================== *)
(** ** The deals of a contact *)
(* ===================================================================== *)

Lemma mapM_get items k :
  Forall present items ->
  mapM (fun a => lift (get a k)) items = Ret (map (fun a => field a k) items).
Proof.
  induction 1 as [| a items Ha _ IH]; [reflexivity |].
  cbn [mapM map]. unfold get at 1. rewrite Ha. cbn [lift bind].
  rewrite IH. reflexivity.
Qed.

Lemma toObjectIds_ok items :
  Forall present items -> toObjectIds (JArr items) = Ret (deal_ids items).
Proof.
  intros H. unfold toObjectIds. rewrite mapM_get by assumption. reflexivity.
Qed.

Lemma run_fetch_deals ids :
  forall ds deals rest,
    List.length ds = List.length ids ->
    Forall present ds ->
    run (fetch_deals ids deals) (map Resolved ds ++ rest)
    = (map get_deal ids, Returned (deals ++ map normalized ds), rest).
Proof.
  induction ids as [| id ids IH]; intros ds deals rest Hlen Hds.
  - destruct ds; [| discriminate]. cbn. rewrite app_nil_r. reflexivity.
  - destruct ds as [| d ds]; [discriminate |].
    inversion Hds as [| ? ? Hd Hds']; subst.
    cbn [fetch_deals await bind map Datatypes.app run].
    rewrite id_and_properties_ok by assumption. cbn [bind].
    rewrite IH by (auto; now inversion Hlen).
    rewrite <- app_assoc. reflexivity.
Qed.

Lemma run_fetch_deals_rejected ids :
  forall ds deals err rest,
    (List.length ds < List.length ids)%nat ->
    Forall present ds ->
    run (fetch_deals ids deals) (map Resolved ds ++ Rejected err :: rest)
    = (map get_deal (firstn (S (List.length ds)) ids), Threw err, rest).
Proof.
  induction ids as [| id ids IH]; intros ds deals err rest Hlen Hds.
  - cbn in Hlen. lia.
  - destruct ds as [| d ds].
    + reflexivity.
    + inversion Hds as [| ? ? Hd Hds']; subst.
      cbn [fetch_deals await bind map Datatypes.app run].
      rewrite id_and_properties_ok by assumption. cbn [bind].
      rewrite IH by (auto; cbn in Hlen; lia).
      reflexivity.
Qed.

Lemma get_api_contacts_deals_ok req associations items ds rest :
  lists_associations associations items ->
  List.length ds = List.length (deal_ids items) ->
  Forall present ds ->
  run (get_api_contacts_deals req)
      (Resolved associations :: map Resolved ds ++ rest)
  = (get_associations (contactId_param req)
       :: map get_deal (deal_ids items),
     Returned (res_json (JObj [("results", JArr (map normalized ds))])),
     rest).
Proof.
  intros (Ha & Hr & Hi) Hlen Hds.
  unfold get_api_contacts_deals. cbn [get nullish lift bind field].
  rewrite run_try_catch. cbn [await bind run].
  unfold get at 1. rewrite Ha. cbn [lift bind].
  rewrite Hr, toObjectIds_ok by assumption. cbn [bind].
  destruct (deal_ids items) as [| id ids] eqn:Hids.
  - destruct ds; [| discriminate]. reflexivity.
  - rewrite run_bind, run_fetch_deals by assumption.
    cbn [run Datatypes.app]. rewrite app_nil_r. reflexivity.
Qed.

Lemma get_api_contacts_deals_unlisted req err rest :
  run (get_api_contacts_deals req) (Rejected err :: rest)
  = ([get_associations (contactId_param req)],
     Returned (upstream_error err
                 "Error fetching deals for specific contact from HubSpot"),
     rest).
Proof.
  unfold get_api_contacts_deals. cbn [get nullish lift bind field].
  cbn [await bind try_catch run].
  rewrite handleHubSpotError_spec. reflexivity.
Qed.

Lemma get_api_contacts_deals_stopped req associations items ds err rest :
  lists_associations associations items ->
  (List.length ds < List.length (deal_ids items))%nat ->
  Forall present ds ->
  run (get_api_contacts_deals req)
      (Resolved associations :: map Resolved ds ++ Rejected err :: rest)
  = (get_associations (contactId_param req)
       :: map get_deal (firstn (S (List.length ds)) (deal_ids items)),
     Returned (upstream_error err
                 "Error fetching deals for specific contact from HubSpot"),
     rest).
Proof.
  intros (Ha & Hr & Hi) Hlen Hds.
  unfold get_api_contacts_deals. cbn [get nullish lift bind field].
  rewrite run_try_catch. cbn [await bind run].
  unfold get at 1. rewrite Ha. cbn [lift bind].
  rewrite Hr, toObjectIds_ok by assumption. cbn [bind].
  destruct (deal_ids items) as [| id ids] eqn:Hids.
  - cbn in Hlen. lia.
  - rewrite run_bind, run_fetch_deals_rejected by assumption.
    cbn [run]. rewrite app_nil_r, handleHubSpotError_spec. reflexivity.
Qed.

(* ===================================================================== *)
(** ** The list endpoints and [POST /api/contacts] *)
(* ===================================================================== *)

Lemma get_api_contacts_settled req o rest :
  run (get_api_contacts req) (o :: rest)
  = ([get_contacts_page],
     Returned
       match o with
       | Resolved r =>
           res_json (JObj [("results", JArr (spec_list_results r))])
       | Rejected err =>
           upstream_error err "Error fetching contacts from HubSpot"
       end,
     rest).
Proof.
  unfold get_api_contacts.
  destruct o as [r | err]; cbn [await bind try_catch run].
  - rewrite extractListResults_spec. reflexivity.
  - rewrite handleHubSpotError_spec. reflexivity.
Qed.

Lemma get_api_deals_settled req o rest :
  run (get_api_deals req) (o :: rest)
  = ([get_deals_page],
     Returned
       match o with
       | Resolved r =>
           res_json (JObj [("results", JArr (spec_list_results r))])
       | Rejected err =>
           upstream_error err "Error fetching deals from HubSpot"
       end,
     rest).
Proof.
  unfold get_api_deals.
  destruct o as [r | err]; cbn [await bind try_catch run].
  - rewrite extractListResults_spec. reflexivity.
  - rewrite handleHubSpotError_spec. reflexivity.
Qed.


Lemma post_api_contacts_rejected req err rest :
  truthy (email_of req) = true ->
  run (post_api_contacts req) (Rejected err :: rest)
  = ([ContactsCreate
        (JObj [("properties", field (body_of req) "properties")])],
     Returned (upstream_error err "Error creating contact in HubSpot"),
     rest).
Proof.
  unfold email_of; intros He.
  unfold post_api_contacts. read_body req.
  rewrite He, (truthy_field_object _ _ He). cbn [negb orb].
  cbn [await bind try_catch run].
  rewrite handleHubSpotError_spec. reflexivity.
Qed.

(* ===================================================================== *)
(** ** [POST /api/ai/customer-summary] *)
(* ===================================================================== *)

Lemma run_getContactFromHubSpot contactId contact rest :
  present contact ->
  run (getContactFromHubSpot contactId) (Resolved contact :: rest)
  = ([get_contact contactId], Returned (normalized contact), rest).
Proof.
  intros Hc. unfold getContactFromHubSpot. cbn [await bind run].
  rewrite id_and_properties_ok by assumption. reflexivity.
Qed.

Lemma run_getDeals_ok contactId associations items ds rest :
  lists_associations associations items ->
  List.length ds = List.length (deal_ids items) ->
  Forall present ds ->
  run (getDealsForContactFromHubSpot contactId)
      (Resolved associations :: map Resolved ds ++ rest)
  = (get_associations contactId :: map get_deal (deal_ids items),
     Returned (map normalized ds), rest).
Proof.
  intros (Ha & Hr & Hi) Hlen Hds.
  unfold getDealsForContactFromHubSpot. cbn [await bind run].
  unfold get at 1. rewrite Ha. cbn [lift bind].
  rewrite Hr, toObjectIds_ok by assumption. cbn [bind].
  destruct (deal_ids items) as [| id ids] eqn:Hids.
  - destruct ds; [| discriminate]. reflexivity.
  - rewrite run_fetch_deals by assumption. reflexivity.
Qed.

Lemma run_getDeals_unlisted contactId err rest :
  run (getDealsForContactFromHubSpot contactId) (Rejected err :: rest)
  = ([get_associations contactId], Threw err, rest).
Proof. reflexivity. Qed.

Lemma run_getDeals_stopped contactId associations items ds err rest :
  lists_associations associations items ->
  (List.length ds < List.length (deal_ids items))%nat ->
  Forall present ds ->
  run (getDealsForContactFromHubSpot contactId)
      (Resolved associations :: map Resolved ds ++ Rejected err :: rest)
  = (get_associations contactId
       :: map get_deal (firstn (S (List.length ds)) (deal_ids items)),
     Threw err, rest).
Proof.
  intros (Ha & Hr & Hi) Hlen Hds.
  unfold getDealsForContactFromHubSpot. cbn [await bind run].
  unfold get at 1. rewrite Ha. cbn [lift bind].
  rewrite Hr, toObjectIds_ok by assumption. cbn [bind].
  destruct (deal_ids items) as [| id ids] eqn:Hids.
  - cbn in Hlen. lia.
  - rewrite run_fetch_deals_rejected by assumption. reflexivity.
Qed.

(** Enters the [try] block of the summary handler. *)
Ltac enter_summary req Hc :=
  unfold post_api_ai_customer_summary; read_body req;
  fold (contactId_of req); rewrite Hc; cbn [negb];
  rewrite run_try_catch, run_bind.

Lemma summary_contact_rejected openai req err rest :
  truthy (contactId_of req) = true ->
  run (post_api_ai_customer_summary (Some openai) req) (Rejected err :: rest)
  = ([get_contact (contactId_of req)], Returned (summary_error err), rest).
Proof.
  intros Hc. enter_summary req Hc. reflexivity.
Qed.

Lemma summary_associations_rejected openai req contact err rest :
  truthy (contactId_of req) = true ->
  present contact ->
  run (post_api_ai_customer_summary (Some openai) req)
      (Resolved contact :: Rejected err :: rest)
  = ([get_contact (contactId_of req); get_associations (contactId_of req)],
     Returned (summary_error err), rest).
Proof.
  intros Hc Hct. enter_summary req Hc.
  rewrite run_getContactFromHubSpot by assumption.
  rewrite run_bind, run_getDeals_unlisted. reflexivity.
Qed.

Lemma summary_deal_rejected openai req contact associations items ds err rest :
  truthy (contactId_of req) = true ->
  present contact ->
  lists_associations associations items ->
  (List.length ds < List.length (deal_ids items))%nat ->
  Forall present ds ->
  run (post_api_ai_customer_summary (Some openai) req)
      (Resolved contact :: Resolved associations
         :: map Resolved ds ++ Rejected err :: rest)
  = (get_contact (contactId_of req) :: get_associations (contactId_of req)
       :: map get_deal (firstn (S (List.length ds)) (deal_ids items)),
     Returned (summary_error err), rest).
Proof.
  intros Hc Hct Ha Hlen Hds. enter_summary req Hc.
  rewrite run_getContactFromHubSpot by assumption.
  rewrite run_bind, (run_getDeals_stopped _ _ items) by assumption.
  cbn [run Datatypes.app]. rewrite app_nil_r. reflexivity.
Qed.

Lemma summary_completion_rejected
  openai req contact associations items ds err rest :
  truthy (contactId_of req) = true ->
  present contact ->
  lists_associations associations items ->
  List.length ds = List.length (deal_ids items) ->
  Forall present ds ->
  run (post_api_ai_customer_summary (Some openai) req)
      (Resolved contact :: Resolved associations
         :: map Resolved ds ++ Rejected err :: rest)
  = (get_contact (contactId_of req) :: get_associations (contactId_of req)
       :: map get_deal (deal_ids items)
       ++ [complete_prompt (normalized contact) (map normalized ds)],
     Returned (summary_error err), rest).
Proof.
  intros Hc Hct Ha Hlen Hds. enter_summary req Hc.
  rewrite run_getContactFromHubSpot by assumption.
  rewrite run_bind, (run_getDeals_ok _ _ items) by assumption.
  cbn [await bind run Datatypes.app]. rewrite app_nil_r. reflexivity.
Qed.


(* ===================================================================== *)
(** ** Create a deal and associate it *)
(* ===================================================================== *)

(** A contact id that [String] cannot convert, an object with a
    [toString] property of its own, passes the validation; the deal is
    created, the conversion throws before the association call is made,
    and the answer is 500. *)
Lemma unprintable_contact_not_associated :
  truthy (dealname_of Sample.deal_for_unprintable) = true
  /\ truthy (contactId_of Sample.deal_for_unprintable) = true
  /\ run (post_api_deals Sample.deal_for_unprintable)
         [Resolved Sample.created_deal; Resolved Sample.associated]
     = ([DealsCreate (JObj [("properties", Sample.annual_plan)])],
        Returned
          {| statusCode := JNum 500;
             body :=
               JObj [("error",
                      JStr "Error creating deal or associating it with contact");
                     ("details",
                      JStr "Cannot convert object to primitive value")] |},
        [Resolved Sample.associated]).
Proof. repeat split. Qed.

(** C1, amended: a request to [POST /api/deals] that carries a deal name
    and a contact id, once the deal-create has resolved to a response
    object [cr], converts the contact id with [String].  When the
    conversion gives [text], the handler makes exactly one association
    call, with category [HUBSPOT_DEFINED], type id 3 and [text] as the
    contact id; when that call succeeds, with whatever result [ar], the
    answer is 201 with the created deal's [{id, properties}], in which
    [ar] does not appear.  When the conversion throws, no association call
    is made and the throw is answered as an upstream error. *)
Theorem create_deal_associates_once req cr rest :
  truthy (dealname_of req) = true ->
  truthy (contactId_of req) = true ->
  present cr ->
  (forall text ar,
     String_ (contactId_of req) = inr text ->
     run (post_api_deals req) (Resolved cr :: Resolved ar :: rest)
     = ([DealsCreate
           (JObj [("properties", field (body_of req) "dealProperties")]);
         DealsAssociationsCreate
           (field (normalized cr) "id") (JStr "contacts") (JStr text)
           (JArr [JObj [("associationCategory", JStr "HUBSPOT_DEFINED");
                        ("associationTypeId", JNum 3)]])],
        Returned {| statusCode := JNum 201; body := normalized cr |},
        rest))
  /\ (forall thrown,
        String_ (contactId_of req) = inl thrown ->
        run (post_api_deals req) (Resolved cr :: rest)
        = ([DealsCreate
              (JObj [("properties", field (body_of req) "dealProperties")])],
           Returned
             (upstream_error thrown
                "Error creating deal or associating it with contact"),
           rest)).
Proof.
  intros Hd Hc Hcr. split.
  - intros text ar Hs.
    exact (post_api_deals_settled req cr text (Resolved ar) rest
             Hd Hc Hcr Hs).
  - intros thrown Hs.
    exact (post_api_deals_unprintable req cr thrown rest Hd Hc Hcr Hs).
Qed.

Lemma create_deal_associates_once_witness :
  run (post_api_deals Sample.deal_for_contact)
      [Resolved Sample.wrapped_deal; Resolved Sample.associated]
  = ([DealsCreate (JObj [("properties", Sample.annual_plan)]);
      DealsAssociationsCreate (JStr "9002") (JStr "contacts") (JStr "42")
        (JArr [JObj [("associationCategory", JStr "HUBSPOT_DEFINED");
                     ("associationTypeId", JNum 3)]])],
     Returned {| statusCode := JNum 201;
                 body := JObj [("id", JStr "9002");
                               ("properties", Sample.annual_plan)] |},
     [])
  /\ run (post_api_deals Sample.deal_for_unprintable)
         [Resolved Sample.wrapped_deal]
     = ([DealsCreate (JObj [("properties", Sample.annual_plan)])],
        Returned
          {| statusCode := JNum 500;
             body :=
               JObj [("error",
                      JStr "Error creating deal or associating it with contact");
                     ("details",
                      JStr "Cannot convert object to primitive value")] |},
        []).
Proof.
  split.
  - exact (proj1 (create_deal_associates_once Sample.deal_for_contact
                    Sample.wrapped_deal [] eq_refl eq_refl eq_refl)
             "42" Sample.associated eq_refl).
  - exact (proj2 (create_deal_associates_once Sample.deal_for_unprintable
                    Sample.wrapped_deal [] eq_refl eq_refl eq_refl)
             cannot_convert eq_refl).
Defined.

(** C7: in [POST /api/deals] a missing deal name and a missing contact id
    each have their own 400 answer; the deal name is checked first, and
    neither answer is preceded by an external call. *)
Theorem deal_validation_order req script :
  (truthy (dealname_of req) = false ->
   run (post_api_deals req) script
   = ([], Returned (bad_request "dealProperties.dealname is required"),
      script))
  /\ (truthy (dealname_of req) = true ->
      truthy (contactId_of req) = false ->
      run (post_api_deals req) script
      = ([],
         Returned (bad_request "contactId is required to associate the deal"),
         script))
  /\ bad_request "dealProperties.dealname is required"
     <> bad_request "contactId is required to associate the deal".
Proof.
  split; [| split].
  - apply post_api_deals_no_dealname.
  - apply post_api_deals_no_contactId.
  - discriminate.
Qed.

Lemma deal_validation_order_witness :
  run (post_api_deals Sample.empty_body) [Resolved Sample.created_deal]
  = ([], Returned (bad_request "dealProperties.dealname is required"),
     [Resolved Sample.created_deal])
  /\ run (post_api_deals Sample.deal_without_contact)
         [Resolved Sample.created_deal]
     = ([],
        Returned (bad_request "contactId is required to associate the deal"),
        [Resolved Sample.created_deal]).
Proof.
  split.
  - exact (proj1 (deal_validation_order Sample.empty_body
                    [Resolved Sample.created_deal]) eq_refl).
  - exact (proj1 (proj2 (deal_validation_order Sample.deal_without_contact
                           [Resolved Sample.created_deal]))
             eq_refl eq_refl).
Defined.

(* ===================================================================== *)
(** ** List the deals of a contact *)
(* ===================================================================== *)

(** C2: [GET /api/contacts/:contactId/deals] takes the [toObjectId] of
    each association result and drops the falsy ones.  With no id left it
    answers [{results: []}] after the association call alone.  Otherwise
    it asks for the deals one at a time in the order of the association
    results, each call made once the one before has resolved, and answers
    with their [{id, properties}] records in that order; a call that
    fails ends the walk, so the later deals are never asked for. *)
Theorem list_deals_for_contact req associations items :
  lists_associations associations items ->
  let ids := filter truthy (map (fun a => field a "toObjectId") items) in
  let listing := get_associations (contactId_param req) in
  (ids = [] ->
   forall rest,
     run (get_api_contacts_deals req) (Resolved associations :: rest)
     = ([listing], Returned (res_json (JObj [("results", JArr [])])), rest))
  /\ (forall ds rest,
        List.length ds = List.length ids ->
        Forall present ds ->
        run (get_api_contacts_deals req)
            (Resolved associations :: map Resolved ds ++ rest)
        = (listing :: map get_deal ids,
           Returned
             (res_json (JObj [("results", JArr (map normalized ds))])),
           rest))
  /\ (forall ds err rest,
        (List.length ds < List.length ids)%nat ->
        Forall present ds ->
        run (get_api_contacts_deals req)
            (Resolved associations :: map Resolved ds
               ++ Rejected err :: rest)
        = (listing :: map get_deal (firstn (S (List.length ds)) ids),
           Returned
             (upstream_error err
                "Error fetching deals for specific contact from HubSpot"),
           rest)).
Proof.
  intros Ha ids listing. subst ids listing.
  change (filter truthy (map (fun a => field a "toObjectId") items))
    with (deal_ids items).
  split; [| split].
  - intros Hids rest.
    pose proof (get_api_contacts_deals_ok req associations items [] rest Ha)
      as H.
    rewrite Hids in H. exact (H eq_refl (Forall_nil _)).
  - intros ds rest Hlen Hds.
    now apply get_api_contacts_deals_ok with (items := items).
  - intros ds err rest Hlen Hds.
    now apply get_api_contacts_deals_stopped.
Qed.

Lemma sample_associations_listed :
  lists_associations Sample.associations Sample.edges.
Proof.
  repeat split. repeat constructor.
Defined.

Lemma list_deals_for_contact_witness :
  run (get_api_contacts_deals Sample.empty_body)
      [Resolved Sample.associations; Resolved Sample.created_deal;
       Resolved Sample.wrapped_deal]
  = ([get_associations (JStr "7"); get_deal (JStr "9001");
      get_deal (JStr "9002")],
     Returned
       (res_json
          (JObj [("results",
                  JArr [JObj [("id", JStr "9001");
                              ("properties", Sample.annual_plan)];
                        JObj [("id", JStr "9002");
                              ("properties", Sample.annual_plan)]])])),
     []).
Proof.
  apply (proj1 (proj2 (list_deals_for_contact Sample.empty_body
                         Sample.associations Sample.edges
                         sample_associations_listed))
           [Sample.created_deal; Sample.wrapped_deal] []).
  - reflexivity.
  - repeat constructor.
Defined.

(* ===================================================================== *)
(** ** No deal without a contact *)
(* ===================================================================== *)

(** A request that names a deal and no contact is turned down by
    [POST /api/deals] before the deal is created, and no route of the
    server answers it with 201. *)
Lemma no_standalone_create_deal :
  run (post_api_deals Sample.deal_without_contact)
      [Resolved Sample.created_deal]
  = ([], Returned (bad_request "contactId is required to associate the deal"),
     [Resolved Sample.created_deal])
  /\ ~ (exists openai r calls b unread,
          run (app openai r Sample.deal_without_contact)
              [Resolved Sample.created_deal]
          = (calls, Returned {| statusCode := JNum 201; body := b |}, unread)).
Proof.
  split; [reflexivity |].
  intros (openai & r & calls & b & unread & H).
  destruct r, openai; vm_compute in H; discriminate H.
Qed.

(** C4, amended: the one create-deal operation is [POST /api/deals].  It
    requires both the deal name and the contact id, answering 400 when
    either is missing.  Once the deal-create has resolved to a response
    object and [String] has converted the contact id, it makes the
    association call, and it answers 201 with the normalized
    [{id, properties}] only when that call succeeds.  A create that is
    rejected or resolves to [undefined] or [null], and a contact id that
    [String] cannot convert, are answered as upstream errors after the
    create alone. *)
Theorem create_deal_requires_contact req :
  let created :=
    DealsCreate (JObj [("properties", field (body_of req) "dealProperties")])
  in
  let failed err :=
    upstream_error err "Error creating deal or associating it with contact"
  in
  (truthy (dealname_of req) = false ->
   forall script,
     run (post_api_deals req) script
     = ([], Returned (bad_request "dealProperties.dealname is required"),
        script))
  /\ (truthy (dealname_of req) = true ->
      truthy (contactId_of req) = false ->
      forall script,
        run (post_api_deals req) script
        = ([],
           Returned
             (bad_request "contactId is required to associate the deal"),
           script))
  /\ (truthy (dealname_of req) = true ->
      truthy (contactId_of req) = true ->
      (forall cr text o rest,
         present cr ->
         String_ (contactId_of req) = inr text ->
         run (post_api_deals req) (Resolved cr :: o :: rest)
         = ([created;
             DealsAssociationsCreate
               (field (normalized cr) "id") (JStr "contacts")
               (JStr text) associationSpec],
            Returned
              match o with
              | Resolved _ => {| statusCode := JNum 201;
                                 body := normalized cr |}
              | Rejected err => failed err
              end,
            rest))
      /\ (forall cr thrown rest,
            present cr ->
            String_ (contactId_of req) = inl thrown ->
            run (post_api_deals req) (Resolved cr :: rest)
            = ([created], Returned (failed thrown), rest))
      /\ (forall cr rest,
            nullish cr = true ->
            run (post_api_deals req) (Resolved cr :: rest)
            = ([created], Returned (failed (type_error cr "id")), rest))
      /\ (forall err rest,
            run (post_api_deals req) (Rejected err :: rest)
            = ([created], Returned (failed err), rest))).
Proof.
  cbv zeta. split; [| split].
  - intros Hd script. now apply post_api_deals_no_dealname.
  - intros Hd Hc script. now apply post_api_deals_no_contactId.
  - intros Hd Hc. repeat split.
    + intros cr text o rest Hcr Hs. now apply post_api_deals_settled.
    + intros cr thrown rest Hcr Hs. now apply post_api_deals_unprintable.
    + intros cr rest Hcr. now apply post_api_deals_uncreated.
    + intros err rest. now apply post_api_deals_create_rejected.
Qed.

Lemma create_deal_requires_contact_witness :
  run (post_api_deals Sample.deal_without_name) []
  = ([], Returned (bad_request "dealProperties.dealname is required"), [])
  /\ run (post_api_deals Sample.deal_without_contact) []
     = ([],
        Returned (bad_request "contactId is required to associate the deal"),
        [])
  /\ run (post_api_deals Sample.deal_for_contact)
         [Resolved Sample.created_deal; Rejected Sample.not_found]
     = ([DealsCreate (JObj [("properties", Sample.annual_plan)]);
         DealsAssociationsCreate (JStr "9001") (JStr "contacts") (JStr "42")
           associationSpec],
        Returned
          {| statusCode := JNum 404;
             body :=
               JObj [("error",
                      JStr "Error creating deal or associating it with contact");
                     ("details",
                      JObj [("category", JStr "OBJECT_NOT_FOUND")])] |},
        [])
  /\ run (post_api_deals Sample.deal_for_unprintable)
         [Resolved Sample.created_deal]
     = ([DealsCreate (JObj [("properties", Sample.annual_plan)])],
        Returned
          (upstream_error cannot_convert
             "Error creating deal or associating it with contact"),
        [])
  /\ run (post_api_deals Sample.deal_for_contact) [Resolved JNull]
     = ([DealsCreate (JObj [("properties", Sample.annual_plan)])],
        Returned
          (upstream_error (type_error JNull "id")
             "Error creating deal or associating it with contact"),
        []).
Proof.
  split; [| split; [| split; [| split]]].
  - exact (proj1 (create_deal_requires_contact Sample.deal_without_name)
             eq_refl []).
  - exact (proj1 (proj2 (create_deal_requires_contact
                           Sample.deal_without_contact))
             eq_refl eq_refl []).
  - exact (proj1 (proj2 (proj2 (create_deal_requires_contact
                                  Sample.deal_for_contact))
                    eq_refl eq_refl)
             Sample.created_deal "42" (Rejected Sample.not_found) []
             eq_refl eq_refl).
  - exact (proj1 (proj2 (proj2 (proj2 (create_deal_requires_contact
                                         Sample.deal_for_unprintable))
                           eq_refl eq_refl))
             Sample.created_deal cannot_convert [] eq_refl eq_refl).
  - exact (proj1 (proj2 (proj2 (proj2 (proj2
             (create_deal_requires_contact Sample.deal_for_contact))
             eq_refl eq_refl)))
             JNull [] eq_refl).
Defined.

(* ===================================================================== *)
(** ** The summary handler's checks *)
(* ===================================================================== *)

(** C6: a summary request with a contact id, when no summarization client
    is configured, is answered 500 with the configuration message and
    without any call: the check comes before the contact and deal
    fetches. *)
Theorem summary_configuration_first req script :
  truthy (contactId_of req) = true ->
  run (post_api_ai_customer_summary None req) script
  = ([],
     Returned
       {| statusCode := JNum 500;
          body :=
            JObj [("error",
                   JStr "AI not configured. Set OPENAI_API_KEY in your .env to enable this endpoint.")] |},
     script).
Proof. apply summary_not_configured. Qed.

Lemma summary_configuration_first_witness :
  run (post_api_ai_customer_summary (openai_of_env None)
         Sample.summary_of_contact)
      [Resolved Sample.created_contact]
  = ([],
     Returned
       {| statusCode := JNum 500;
          body :=
            JObj [("error",
                   JStr "AI not configured. Set OPENAI_API_KEY in your .env to enable this endpoint.")] |},
     [Resolved Sample.created_contact]).
Proof.
  exact (summary_configuration_first Sample.summary_of_contact
           [Resolved Sample.created_contact] eq_refl).
Defined.

(** C9: the summary handler checks the contact id before the
    configuration: without a contact id the answer is 400, also when no
    summarization client is configured. *)
Theorem summary_contactId_first openai req script :
  truthy (contactId_of req) = false ->
  run (post_api_ai_customer_summary openai req) script
  = ([], Returned {| statusCode := JNum 400;
                     body := JObj [("error", JStr "contactId is required")] |},
     script).
Proof. apply summary_no_contactId. Qed.

Lemma summary_contactId_first_witness :
  run (post_api_ai_customer_summary None Sample.empty_body) []
  = ([], Returned {| statusCode := JNum 400;
                     body := JObj [("error", JStr "contactId is required")] |},
     []).
Proof.
  exact (summary_contactId_first None Sample.empty_body [] eq_refl).
Defined.

(* ===================================================================== *)
(** ** Required fields *)
(* ===================================================================== *)

(** C10: the required fields are tested for truthiness.  A request whose
    [properties.email], [dealProperties.dealname] or [contactId] is the
    empty string or another falsy value gets the 400 answer of the
    request [missing] that leaves the field out, in the contact, deal and
    summary handlers alike. *)
Theorem falsy_field_is_missing_field req missing openai script :
  (truthy (email_of req) = false ->
   email_of missing = JUndefined ->
   run (post_api_contacts req) script
   = run (post_api_contacts missing) script
   /\ run (post_api_contacts req) script
      = ([],
         Returned
           (bad_request "properties.email is required to create a contact"),
         script))
  /\ (truthy (dealname_of req) = false ->
      dealname_of missing = JUndefined ->
      run (post_api_deals req) script = run (post_api_deals missing) script
      /\ run (post_api_deals req) script
         = ([], Returned (bad_request "dealProperties.dealname is required"),
            script))
  /\ (truthy (dealname_of req) = true ->
      truthy (dealname_of missing) = true ->
      truthy (contactId_of req) = false ->
      contactId_of missing = JUndefined ->
      run (post_api_deals req) script = run (post_api_deals missing) script
      /\ run (post_api_deals req) script
         = ([],
            Returned
              (bad_request "contactId is required to associate the deal"),
            script))
  /\ (truthy (contactId_of req) = false ->
      contactId_of missing = JUndefined ->
      run (post_api_ai_customer_summary openai req) script
      = run (post_api_ai_customer_summary openai missing) script
      /\ run (post_api_ai_customer_summary openai req) script
         = ([], Returned (bad_request "contactId is required"), script)).
Proof.
  split; [| split; [| split]].
  - intros He Hm.
    rewrite !post_api_contacts_no_email; auto. now rewrite Hm.
  - intros Hd Hm.
    rewrite !post_api_deals_no_dealname; auto. now rewrite Hm.
  - intros Hd Hd' Hc Hm.
    rewrite !post_api_deals_no_contactId; auto. now rewrite Hm.
  - intros Hc Hm.
    rewrite !summary_no_contactId; auto. now rewrite Hm.
Qed.

Lemma falsy_field_is_missing_field_witness :
  run (post_api_contacts Sample.contact_with_empty_email) []
  = run (post_api_contacts Sample.no_body) []
  /\ run (post_api_deals Sample.deal_with_empty_name) []
     = run (post_api_deals Sample.empty_body) []
  /\ run (post_api_deals Sample.deal_with_empty_contact) []
     = run (post_api_deals Sample.deal_without_contact) []
  /\ run (post_api_ai_customer_summary (Some Sample.openai)
            Sample.summary_of_zero) []
     = run (post_api_ai_customer_summary (Some Sample.openai)
              Sample.empty_body) [].
Proof.
  split; [| split; [| split]].
  - exact (proj1 (proj1 (falsy_field_is_missing_field
                           Sample.contact_with_empty_email Sample.no_body
                           None [])
                    eq_refl eq_refl)).
  - exact (proj1 (proj1 (proj2 (falsy_field_is_missing_field
                                  Sample.deal_with_empty_name
                                  Sample.empty_body None []))
                    eq_refl eq_refl)).
  - exact (proj1 (proj1 (proj2 (proj2 (falsy_field_is_missing_field
                                         Sample.deal_with_empty_contact
                                         Sample.deal_without_contact
                                         None [])))
                    eq_refl eq_refl eq_refl eq_refl)).
  - exact (proj1 (proj2 (proj2 (proj2 (falsy_field_is_missing_field
                                         Sample.summary_of_zero
                                         Sample.empty_body
                                         (Some Sample.openai) [])))
                    eq_refl eq_refl)).
Defined.

(* ===================================================================== *)
(** ** Upstream failures *)
(* ===================================================================== *)

(** The summary handler does not pass on the status of a failed CRM call:
    a 404 from the contact fetch is answered 500. *)
Lemma summary_drops_upstream_status :
  truthy (opt_field Sample.not_found "statusCode") = true
  /\ run (post_api_ai_customer_summary (Some Sample.openai)
            Sample.summary_of_contact)
         [Rejected Sample.not_found]
     = ([get_contact (JStr "7")],
        Returned
          {| statusCode := JNum 500;
             body := JObj [("error", JStr "Failed to generate AI insight");
                           ("details", JStr "Not Found")] |},
        [])
  /\ ~ responds (post_api_ai_customer_summary (Some Sample.openai)
                   Sample.summary_of_contact)
         [Rejected Sample.not_found]
         (upstream_error Sample.not_found "Failed to generate AI insight").
Proof.
  split; [reflexivity | split; [reflexivity |]].
  intros (calls & H). vm_compute in H. discriminate H.
Qed.

(** C5, amended: in the CRM handlers (list and create contacts, list
    deals, create deal with association, list deals for a contact) a
    failed external call is answered with the status code of the external
    error when it has one and 500 otherwise, and the body
    [{error: context, details: payload or message}]; the association
    call of the create-deal route is the one made once [String] has
    converted the contact id.  The summary handler answers every failed
    call with 500 and
    [{error: "Failed to generate AI insight", details: message or error}]. *)
Theorem upstream_failures req err :
  responds (get_api_contacts req) [Rejected err]
    (upstream_error err "Error fetching contacts from HubSpot")
  /\ responds (get_api_deals req) [Rejected err]
       (upstream_error err "Error fetching deals from HubSpot")
  /\ (truthy (email_of req) = true ->
      responds (post_api_contacts req) [Rejected err]
        (upstream_error err "Error creating contact in HubSpot"))
  /\ (truthy (dealname_of req) = true ->
      truthy (contactId_of req) = true ->
      responds (post_api_deals req) [Rejected err]
        (upstream_error err
           "Error creating deal or associating it with contact")
      /\ forall cr text,
           present cr ->
           String_ (contactId_of req) = inr text ->
           responds (post_api_deals req) [Resolved cr; Rejected err]
             (upstream_error err
                "Error creating deal or associating it with contact"))
  /\ (responds (get_api_contacts_deals req) [Rejected err]
        (upstream_error err
           "Error fetching deals for specific contact from HubSpot")
      /\ forall associations items ds,
           lists_associations associations items ->
           (List.length ds < List.length (deal_ids items))%nat ->
           Forall present ds ->
           responds (get_api_contacts_deals req)
             (Resolved associations :: map Resolved ds ++ [Rejected err])
             (upstream_error err
                "Error fetching deals for specific contact from HubSpot"))
  /\ (truthy (contactId_of req) = true ->
      forall openai contact,
        let summary := post_api_ai_customer_summary (Some openai) req in
        responds summary [Rejected err] (summary_error err)
        /\ (present contact ->
            responds summary [Resolved contact; Rejected err]
              (summary_error err)
            /\ forall associations items ds,
                 lists_associations associations items ->
                 Forall present ds ->
                 ((List.length ds < List.length (deal_ids items))%nat
                  \/ List.length ds = List.length (deal_ids items)) ->
                 responds summary
                   (Resolved contact :: Resolved associations
                      :: map Resolved ds ++ [Rejected err])
                   (summary_error err))).
Proof.
  unfold responds.
  repeat match goal with |- _ /\ _ => split end.
  - eexists. apply (get_api_contacts_settled req (Rejected err)).
  - eexists. apply (get_api_deals_settled req (Rejected err)).
  - intros He. eexists. now apply post_api_contacts_rejected.
  - intros Hd Hc. split.
    + eexists. now apply post_api_deals_create_rejected.
    + intros cr text Hcr Hs. eexists.
      now apply (post_api_deals_settled req cr text (Rejected err)).
  - eexists. apply get_api_contacts_deals_unlisted.
  - intros associations items ds Ha Hlen Hds. eexists.
    now apply get_api_contacts_deals_stopped with (items := items).
  - intros Hc openai contact. split.
    + eexists. now apply summary_contact_rejected.
    + intros Hct. split.
      * eexists. now apply summary_associations_rejected.
      * intros associations items ds Ha Hds [Hlen | Hlen]; eexists.
        -- now apply summary_deal_rejected with (items := items).
        -- now apply summary_completion_rejected with (items := items).
Qed.

Lemma upstream_failures_witness :
  responds (post_api_contacts Sample.contact_with_email)
    [Rejected Sample.not_found]
    {| statusCode := JNum 404;
       body := JObj [("error", JStr "Error creating contact in HubSpot");
                     ("details",
                      JObj [("category", JStr "OBJECT_NOT_FOUND")])] |}
  /\ responds (post_api_deals Sample.deal_for_contact)
       [Resolved Sample.created_deal; Rejected (JStr "socket hang up")]
       {| statusCode := JNum 500;
          body :=
            JObj [("error",
                   JStr "Error creating deal or associating it with contact");
                  ("details", JStr "Unknown HubSpot error")] |}
  /\ responds (get_api_contacts_deals Sample.empty_body)
       [Resolved Sample.associations; Resolved Sample.created_deal;
        Rejected Sample.not_found]
       (upstream_error Sample.not_found
          "Error fetching deals for specific contact from HubSpot")
  /\ responds (post_api_ai_customer_summary (Some Sample.openai)
                 Sample.summary_of_contact)
       [Resolved Sample.created_contact; Resolved Sample.associations;
        Resolved Sample.created_deal; Resolved Sample.wrapped_deal;
        Rejected Sample.not_found]
       {| statusCode := JNum 500;
          body := JObj [("error", JStr "Failed to generate AI insight");
                        ("details", JStr "Not Found")] |}.
Proof.
  split; [| split; [| split]].
  - exact (proj1 (proj2 (proj2 (upstream_failures
                                  Sample.contact_with_email
                                  Sample.not_found)))
             eq_refl).
  - exact (proj2 (proj1 (proj2 (proj2 (proj2 (upstream_failures
                                                Sample.deal_for_contact
                                                (JStr "socket hang up")))))
                    eq_refl eq_refl)
             Sample.created_deal "42" eq_refl eq_refl).
  - apply (proj2 (proj1 (proj2 (proj2 (proj2 (proj2
             (upstream_failures Sample.empty_body Sample.not_found))))))
             Sample.associations Sample.edges [Sample.created_deal]).
    + exact sample_associations_listed.
    + cbv. lia.
    + repeat constructor.
  - apply (proj2 (proj2 (proj2 (proj2 (proj2 (proj2
             (upstream_failures Sample.summary_of_contact
                Sample.not_found))))) eq_refl Sample.openai
             Sample.created_contact) eq_refl)
      with (associations := Sample.associations) (items := Sample.edges)
           (ds := [Sample.created_deal; Sample.wrapped_deal]).
    + exact sample_associations_listed.
    + repeat constructor.
    + right. reflexivity.
Defined.

(* ===================================================================== *)
(** ** The shape of returned records *)
(* ===================================================================== *)



Lemma shaped_present r : shaped r -> present r.
Proof.
  intros [H | (_ & _ & H)]; destruct r; try discriminate; reflexivity.
Qed.





(* ===================================================================== *)
(** ** What a handler can call *)
(* ===================================================================== *)

Lemma only_calls_bind {A B : Type} P (p : prog A) (f : A -> prog B) :
  only_calls P p -> (forall a, only_calls P (f a)) -> only_calls P (bind p f).
Proof.
  induction p as [a | e | c k IH]; cbn; intros Hp Hf; auto.
  destruct Hp as [Hc Hk]. split; auto.
Qed.

Lemma only_calls_try_catch {A : Type} P (p : prog A) h :
  only_calls P p -> (forall e, only_calls P (h e)) ->
  only_calls P (try_catch p h).
Proof.
  induction p as [a | e | c k IH]; cbn; intros Hp Hh; auto.
  destruct Hp as [Hc Hk]. split; auto.
Qed.

Lemma only_calls_lift {A : Type} P (r : jsval + A) : only_calls P (lift r).
Proof. destruct r; exact I. Qed.

Lemma only_calls_await P c : P c = true -> only_calls P (await c).
Proof. intros Hc. split; [assumption |]. intros [v | e]; exact I. Qed.

Lemma only_calls_run {A : Type} P (p : prog A) :
  only_calls P p -> forall script, forallb P (calls_of (run p script)) = true.
Proof.
  unfold calls_of.
  induction p as [a | e | c k IH]; cbn; intros Hp script; auto.
  destruct Hp as [Hc Hk].
  destruct script as [| o rest]; cbn; [now rewrite Hc |].
  specialize (IH o (Hk o) rest).
  destruct (run (k o) rest) as [[cs r] unread]. cbn in *.
  now rewrite Hc, IH.
Qed.

Lemma no_call_run {A : Type} (p : prog A) script :
  only_calls no_call p -> calls_of (run p script) = [].
Proof.
  intros Hp. pose proof (only_calls_run no_call p Hp script) as H.
  destruct (calls_of (run p script)); [reflexivity | discriminate H].
Qed.

Lemma only_calls_top_or_body P r k : only_calls P (top_or_body r k).
Proof.
  unfold top_or_body.
  apply only_calls_bind; [apply only_calls_lift |]. intros top.
  destruct (truthy top); [exact I |].
  apply only_calls_bind; [apply only_calls_lift |]. intros b. exact I.
Qed.

Lemma only_calls_id_and_properties P r : only_calls P (id_and_properties r).
Proof.
  unfold id_and_properties.
  apply only_calls_bind; [apply only_calls_top_or_body |]. intros id.
  apply only_calls_bind; [apply only_calls_top_or_body |]. intros ps.
  exact I.
Qed.

Lemma only_calls_toObjectIds P v : only_calls P (toObjectIds v).
Proof.
  destruct v; try exact I. cbn.
  apply only_calls_bind; [| intros; exact I].
  induction items as [| a items IH]; [exact I |]. cbn [mapM].
  apply only_calls_bind; [apply only_calls_lift |]. intros x.
  apply only_calls_bind; [exact IH |]. intros xs. exact I.
Qed.

Lemma only_calls_fetch_deals P ids :
  (forall id, P (get_deal id) = true) ->
  forall deals, only_calls P (fetch_deals ids deals).
Proof.
  intros HP. induction ids as [| id ids IH]; intros deals; [exact I |].
  cbn [fetch_deals].
  apply only_calls_bind; [apply only_calls_await, HP |]. intros deal.
  apply only_calls_bind; [apply only_calls_id_and_properties |]. intros d.
  apply IH.
Qed.

Lemma only_calls_getDeals P contactId :
  P (get_associations contactId) = true ->
  (forall id, P (get_deal id) = true) ->
  only_calls P (getDealsForContactFromHubSpot contactId).
Proof.
  intros Ha Hd. unfold getDealsForContactFromHubSpot.
  apply only_calls_bind; [apply only_calls_await, Ha |]. intros a.
  apply only_calls_bind; [apply only_calls_lift |]. intros results.
  apply only_calls_bind; [apply only_calls_toObjectIds |]. intros ids.
  destruct ids; [exact I |]. now apply only_calls_fetch_deals.
Qed.

Lemma only_calls_getContact P contactId :
  P (get_contact contactId) = true ->
  only_calls P (getContactFromHubSpot contactId).
Proof.
  intros Hc. unfold getContactFromHubSpot.
  apply only_calls_bind; [apply only_calls_await, Hc |]. intros c.
  apply only_calls_id_and_properties.
Qed.

(** One step in showing what a handler can call. *)
Ltac calls_step :=
  first
    [ exact I
    | apply only_calls_lift
    | apply only_calls_id_and_properties
    | apply only_calls_toObjectIds
    | apply only_calls_await; reflexivity
    | apply only_calls_fetch_deals; intros; reflexivity
    | apply only_calls_getContact; reflexivity
    | apply only_calls_getDeals; [reflexivity | intros; reflexivity]
    | apply only_calls_try_catch
    | apply only_calls_bind
    | match goal with
      | |- only_calls _ (if ?b then _ else _) => destruct b
      | |- only_calls _ (match ?x with _ => _ end) => destruct x
      end
    | intro ].

Lemma only_reads_get_api_contacts req :
  only_calls is_read (get_api_contacts req).
Proof. unfold get_api_contacts. repeat calls_step. Qed.

Lemma only_reads_get_api_deals req :
  only_calls is_read (get_api_deals req).
Proof. unfold get_api_deals. repeat calls_step. Qed.

Lemma only_reads_get_api_contacts_deals req :
  only_calls is_read (get_api_contacts_deals req).
Proof. unfold get_api_contacts_deals. repeat calls_step. Qed.

Lemma is_read_not_write c : is_read c = true -> negb (is_write c) = true.
Proof. destruct c; cbn; congruence. Qed.

Lemma only_calls_weaken {A : Type} (P Q : call -> bool) (p : prog A) :
  (forall c, P c = true -> Q c = true) -> only_calls P p -> only_calls Q p.
Proof.
  intros HPQ. induction p as [a | e | c k IH]; cbn; auto.
  intros [Hc Hk]. split; auto.
Qed.

Lemma no_writes_summary openai req :
  only_calls (fun c => negb (is_write c))
    (post_api_ai_customer_summary openai req).
Proof. unfold post_api_ai_customer_summary. repeat calls_step. Qed.

(** X1: the routes other than the two create routes never write to the
    CRM: whatever the request and however the external calls settle, none
    of their calls creates a contact, a deal or an association. *)
Theorem other_routes_never_write openai r req script :
  creates r = false ->
  forallb (fun c => negb (is_write c))
    (calls_of (run (app openai r req) script)) = true.
Proof.
  intros Hr. apply only_calls_run.
  destruct r; try discriminate Hr; cbn [app].
  - exact I.
  - eapply only_calls_weaken;
      [apply is_read_not_write | apply only_reads_get_api_contacts].
  - eapply only_calls_weaken;
      [apply is_read_not_write | apply only_reads_get_api_deals].
  - eapply only_calls_weaken;
      [apply is_read_not_write | apply only_reads_get_api_contacts_deals].
  - apply no_writes_summary.
Qed.

Lemma other_routes_never_write_witness :
  forallb (fun c => negb (is_write c))
    (calls_of (run (app (Some Sample.openai) POST_api_ai_customer_summary
                      Sample.summary_of_contact)
                 [Resolved Sample.created_contact;
                  Resolved Sample.associations;
                  Resolved Sample.created_deal;
                  Resolved Sample.wrapped_deal;
                  Resolved Sample.completion])) = true.
Proof.
  exact (other_routes_never_write (Some Sample.openai)
           POST_api_ai_customer_summary Sample.summary_of_contact _ eq_refl).
Defined.

(* ===================================================================== *)
(** ** The customer summary *)
(* ===================================================================== *)

Lemma calls_of_try_catch {A : Type} (p : prog A) (f : jsval -> A) script :
  calls_of (run (try_catch p (fun e => Ret (f e))) script)
  = calls_of (run p script).
Proof.
  rewrite run_try_catch. unfold calls_of.
  destruct (run p script) as [[cs r] rest].
  destruct r as [a | e |]; cbn; rewrite ?app_nil_r; reflexivity.
Qed.

Lemma calls_of_bind {A B : Type} (p : prog A) (f : A -> prog B) script :
  calls_of (run (bind p f) script)
  = calls_of (run p script)
    ++ match run p script with
       | (_, Returned a, rest) => calls_of (run (f a) rest)
       | _ => []
       end.
Proof.
  rewrite run_bind. unfold calls_of.
  destruct (run p script) as [[cs r] rest].
  destruct r as [a | e |]; cbn; rewrite ?app_nil_r; try reflexivity.
  destruct (run (f a) rest) as [[cs' r'] rest']. reflexivity.
Qed.

Lemma calls_of_last_await {B : Type} c (tail : jsval -> prog B) script :
  (forall v, only_calls no_call (tail v)) ->
  calls_of (run (bind (await c) tail) script) = [c].
Proof.
  intros Htail. destruct script as [| o rest]; [reflexivity |].
  cbn [await bind run]. destruct o as [v | e]; cbn [bind]; [| reflexivity].
  pose proof (no_call_run (tail v) rest (Htail v)) as H.
  unfold calls_of in *.
  destruct (run (tail v) rest) as [[cs r] unread]. cbn in *. now subst.
Qed.

Lemma strict_bind {A B : Type} (p : prog A) (f : A -> prog B) :
  strict p -> (forall a, strict (f a)) -> strict (bind p f).
Proof.
  induction p as [a | e | c k IH]; cbn; intros Hp Hf; auto.
  destruct Hp as [Hrej Hres]. split.
  - intros e. now rewrite Hrej.
  - intros v. now apply IH.
Qed.

Lemma strict_lift {A : Type} (r : jsval + A) : strict (lift r).
Proof. destruct r; exact I. Qed.

Lemma strict_await c : strict (await c).
Proof. split; [reflexivity | intro; exact I]. Qed.

Lemma strict_id_and_properties r : strict (id_and_properties r).
Proof.
  unfold id_and_properties, top_or_body.
  repeat first
    [ exact I
    | apply strict_lift
    | apply strict_bind
    | match goal with
      | |- strict (if ?b then _ else _) => destruct b
      end
    | intro ].
Qed.

Lemma strict_toObjectIds v : strict (toObjectIds v).
Proof.
  destruct v; try exact I. cbn.
  apply strict_bind; [| intros; exact I].
  induction items as [| a items IH]; [exact I |]. cbn [mapM].
  apply strict_bind; [apply strict_lift |]. intros x.
  apply strict_bind; [exact IH |]. intros xs. exact I.
Qed.

Lemma strict_fetch_deals ids : forall deals, strict (fetch_deals ids deals).
Proof.
  induction ids as [| id ids IH]; intros deals; [exact I |].
  cbn [fetch_deals].
  apply strict_bind; [apply strict_await |]. intros deal.
  apply strict_bind; [apply strict_id_and_properties |]. intros d.
  apply IH.
Qed.

Lemma strict_getContact contactId : strict (getContactFromHubSpot contactId).
Proof.
  unfold getContactFromHubSpot.
  apply strict_bind; [apply strict_await |]. intros c.
  apply strict_id_and_properties.
Qed.

Lemma strict_getDeals contactId :
  strict (getDealsForContactFromHubSpot contactId).
Proof.
  unfold getDealsForContactFromHubSpot.
  apply strict_bind; [apply strict_await |]. intros a.
  apply strict_bind; [apply strict_lift |]. intros results.
  apply strict_bind; [apply strict_toObjectIds |]. intros ids.
  destruct ids; [exact I |]. apply strict_fetch_deals.
Qed.

(** A strict program that returns was given one resolved outcome for each
    of its calls. *)
Lemma strict_returned {A : Type} (p : prog A) :
  strict p ->
  forall script cs a rest,
    run p script = (cs, Returned a, rest) ->
    exists values,
      script = map Resolved values ++ rest
      /\ List.length values = List.length cs.
Proof.
  induction p as [a0 | e | c k IH]; cbn; intros Hp script cs a rest Hrun.
  - injection Hrun as <- _ <-. exists []. split; reflexivity.
  - discriminate Hrun.
  - destruct Hp as [Hrej Hres].
    destruct script as [| o script]; [discriminate Hrun |].
    destruct o as [v | e].
    + destruct (run (k (Resolved v)) script) as [[cs' r'] rest'] eqn:E.
      injection Hrun as <- -> <-.
      destruct (IH (Resolved v) (Hres v) script cs' a rest' E)
        as (values & -> & Hlen).
      exists (v :: values). split; [reflexivity |]. cbn. now rewrite Hlen.
    + rewrite Hrej in Hrun. discriminate Hrun.
Qed.

(** X3: the summary handler calls the language model at most once and
    only as its last call; all its other calls read from the CRM.  When
    the model is called, every call before it has resolved: a rejected
    contact, association or deal fetch never reaches the model.  This
    holds for every request, every configuration and every way the calls
    settle. *)
Theorem summary_model_call_last openai req script :
  let calls :=
    calls_of (run (post_api_ai_customer_summary openai req) script) in
  forallb is_read calls = true
  \/ exists front params values unread,
       calls = front ++ [ChatCompletionsCreate params]
       /\ forallb is_read front = true
       /\ script = map Resolved values ++ unread
       /\ List.length values = List.length front.
Proof.
  cbv zeta. unfold post_api_ai_customer_summary. read_body req.
  destruct (truthy (field (body_of req) "contactId")); cbn [negb];
    [| left; reflexivity].
  destruct openai as [client |]; [| left; reflexivity].
  set (contactId := field (body_of req) "contactId").
  rewrite calls_of_try_catch, calls_of_bind.
  pose proof (only_calls_run is_read (getContactFromHubSpot contactId)
                (only_calls_getContact is_read contactId eq_refl) script)
    as H1.
  destruct (run (getContactFromHubSpot contactId) script)
    as [[cs1 r1] rest1] eqn:E1.
  unfold calls_of at 1; unfold calls_of in H1; cbn [fst] in *.
  destruct r1 as [contact | e |];
    try (left; rewrite app_nil_r; exact H1).
  rewrite calls_of_bind.
  pose proof (only_calls_run is_read (getDealsForContactFromHubSpot contactId)
                (only_calls_getDeals is_read contactId eq_refl
                   (fun _ => eq_refl)) rest1) as H2.
  destruct (run (getDealsForContactFromHubSpot contactId) rest1)
    as [[cs2 r2] rest2] eqn:E2.
  unfold calls_of at 1; unfold calls_of in H2; cbn [fst] in *.
  destruct r2 as [deals | e |];
    try (left; rewrite app_nil_r, forallb_app, H1, H2; reflexivity).
  right. rewrite calls_of_last_await by (intro; repeat calls_step).
  destruct (strict_returned _ (strict_getContact contactId) _ _ _ _ E1)
    as (values1 & Hs1 & Hl1).
  destruct (strict_returned _ (strict_getDeals contactId) _ _ _ _ E2)
    as (values2 & Hs2 & Hl2).
  eexists (cs1 ++ cs2), _, (values1 ++ values2), rest2.
  split; [| split; [| split]].
  - rewrite app_assoc. reflexivity.
  - now rewrite forallb_app, H1, H2.
  - rewrite Hs1, Hs2, map_app, app_assoc. reflexivity.
  - rewrite !length_app. now rewrite Hl1, Hl2.
Qed.




(** X5: a completion without choices does not break the summary handler:
    reading the message of the missing first choice raises a [TypeError],
    which is answered 500 with the handler's own error body. *)
Theorem summary_without_choices
  openai req contact associations items ds completion rest :
  truthy (contactId_of req) = true ->
  present contact ->
  lists_associations associations items ->
  List.length ds = List.length (deal_ids items) ->
  Forall present ds ->
  field completion "choices" = JArr [] ->
  run (post_api_ai_customer_summary (Some openai) req)
      (Resolved contact :: Resolved associations
         :: map Resolved ds ++ Resolved completion :: rest)
  = (get_contact (contactId_of req) :: get_associations (contactId_of req)
       :: map get_deal (deal_ids items)
       ++ [complete_prompt (normalized contact) (map normalized ds)],
     Returned
       {| statusCode := JNum 500;
          body :=
            JObj [("error", JStr "Failed to generate AI insight");
                  ("details",
                   JStr "Cannot read properties of undefined (reading 'message')")] |},
     rest).
Proof.
  intros Hc Hct Ha Hlen Hds Hch.
  enter_summary req Hc.
  rewrite run_getContactFromHubSpot by assumption.
  rewrite run_bind, (run_getDeals_ok _ _ items) by assumption.
  cbn [await bind run Datatypes.app].
  assert (Hcp : present completion)
    by (destruct completion; try discriminate; reflexivity).
  unfold get at 1. rewrite Hcp, Hch.
  cbn [lift bind get_index nullish nth get run]. rewrite app_nil_r.
  reflexivity.
Qed.

Lemma summary_without_choices_witness :
  responds (post_api_ai_customer_summary (Some Sample.openai)
              Sample.summary_of_contact)
    [Resolved Sample.created_contact; Resolved Sample.associated;
     Resolved Sample.empty_completion]
    {| statusCode := JNum 500;
       body :=
         JObj [("error", JStr "Failed to generate AI insight");
               ("details",
                JStr "Cannot read properties of undefined (reading 'message')")] |}.
Proof.
  eexists.
  apply (summary_without_choices Sample.openai Sample.summary_of_contact
           Sample.created_contact Sample.associated [] []
           Sample.empty_completion []).
  - reflexivity.
  - reflexivity.
  - repeat split. constructor.
  - reflexivity.
  - constructor.
  - reflexivity.
Defined.

(* ===================================================================== *)
(** ** Responses that are not objects *)
(* ===================================================================== *)

(** X6: when a create call resolves to [undefined] or [null], reading the
    new record's [id] raises a [TypeError]: the contact route answers 500
    with the error's message, and the deal route does the same without
    ever making the association call. *)
Theorem created_without_response req cr rest :
  nullish cr = true ->
  let details := field (type_error cr "id") "message" in
  (truthy (email_of req) = true ->
   run (post_api_contacts req) (Resolved cr :: rest)
   = ([ContactsCreate
         (JObj [("properties", field (body_of req) "properties")])],
      Returned
        {| statusCode := JNum 500;
           body := JObj [("error", JStr "Error creating contact in HubSpot");
                         ("details", details)] |},
      rest))
  /\ (truthy (dealname_of req) = true ->
      truthy (contactId_of req) = true ->
      run (post_api_deals req) (Resolved cr :: rest)
      = ([DealsCreate
            (JObj [("properties", field (body_of req) "dealProperties")])],
         Returned
           {| statusCode := JNum 500;
              body :=
                JObj [("error",
                       JStr "Error creating deal or associating it with contact");
                      ("details", details)] |},
         rest)).
Proof.
  intros Hcr details. subst details. split.
  - unfold email_of; intros He.
    unfold post_api_contacts. read_body req.
    rewrite He, (truthy_field_object _ _ He). cbn [negb orb].
    cbn [await bind try_catch run].
    unfold id_and_properties, top_or_body, get. rewrite Hcr.
    destruct cr; try discriminate Hcr; reflexivity.
  - unfold dealname_of, contactId_of; intros Hd Hc.
    unfold post_api_deals. read_body req.
    rewrite Hd, (truthy_field_object _ _ Hd), Hc. cbn [negb orb].
    cbn [await bind try_catch run].
    unfold top_or_body, get. rewrite Hcr.
    destruct cr; try discriminate Hcr; reflexivity.
Qed.

Lemma created_without_response_witness :
  run (post_api_deals Sample.deal_for_contact) [Resolved JUndefined]
  = ([DealsCreate (JObj [("properties", Sample.annual_plan)])],
     Returned
       {| statusCode := JNum 500;
          body :=
            JObj [("error",
                   JStr "Error creating deal or associating it with contact");
                  ("details",
                   JStr "Cannot read properties of undefined (reading 'id')")] |},
     [])
  /\ run (post_api_contacts Sample.contact_with_email) [Resolved JNull]
     = ([ContactsCreate
           (JObj [("properties",
                   JObj [("email", JStr "ada@example.com")])])],
        Returned
          {| statusCode := JNum 500;
             body :=
               JObj [("error", JStr "Error creating contact in HubSpot");
                     ("details",
                      JStr "Cannot read properties of null (reading 'id')")] |},
        []).
Proof.
  split.
  - exact (proj2 (created_without_response Sample.deal_for_contact
                    JUndefined [] eq_refl) eq_refl eq_refl).
  - exact (proj1 (created_without_response Sample.contact_with_email
                    JNull [] eq_refl) eq_refl).
Defined.

(** X7: an association response that cannot be walked is answered 500
    before any deal is fetched: when its [results] is a truthy value other
    than an array there is no [map] to call, and when one of the results
    is [undefined] or [null] its [toObjectId] cannot be read. *)
Theorem unusable_associations req associations rest :
  present associations ->
  let listing := get_associations (contactId_param req) in
  let failed err :=
    (([listing],
      Returned
        (upstream_error err
           "Error fetching deals for specific contact from HubSpot"),
      rest) : list call * completion response * list outcome) in
  (truthy (field associations "results") = true ->
   (forall items, field associations "results" <> JArr items) ->
   run (get_api_contacts_deals req) (Resolved associations :: rest)
   = failed (not_a_function "assocResults.map"))
  /\ (forall before a after,
        field associations "results" = JArr (before ++ a :: after) ->
        Forall present before ->
        nullish a = true ->
        run (get_api_contacts_deals req) (Resolved associations :: rest)
        = failed (type_error a "toObjectId")).
Proof.
  intros Ha listing failed. subst listing failed. split.
  - intros Ht Hnot.
    unfold get_api_contacts_deals. cbn [get nullish lift bind field].
    cbn [await bind try_catch run].
    unfold get at 1. rewrite Ha. cbn [lift bind].
    unfold js_or. rewrite Ht.
    destruct (field associations "results") as [| | | | | items |];
      try (cbn; rewrite handleHubSpotError_spec; reflexivity).
    now elim (Hnot items).
  - intros before a after Hr Hb Hn.
    unfold get_api_contacts_deals. cbn [get nullish lift bind field].
    cbn [await bind try_catch run].
    unfold get at 1. rewrite Ha. cbn [lift bind].
    rewrite Hr. cbn [js_or truthy toObjectIds].
    assert (Hm : mapM (fun x => lift (get x "toObjectId"))
                   (before ++ a :: after)
                 = Throw (type_error a "toObjectId")).
    { clear Hr. induction Hb as [| b before Hb' _ IH]; cbn [Datatypes.app mapM].
      - unfold get at 1. rewrite Hn. reflexivity.
      - unfold get at 1. rewrite Hb'. cbn [lift bind]. rewrite IH.
        reflexivity. }
    rewrite Hm. cbn [bind try_catch run].
    rewrite handleHubSpotError_spec. reflexivity.
Qed.

Lemma unusable_associations_witness :
  run (get_api_contacts_deals Sample.empty_body)
      [Resolved Sample.string_results; Resolved Sample.created_deal]
  = ([get_associations (JStr "7")],
     Returned
       {| statusCode := JNum 500;
          body :=
            JObj [("error",
                   JStr "Error fetching deals for specific contact from HubSpot");
                  ("details", JStr "assocResults.map is not a function")] |},
     [Resolved Sample.created_deal])
  /\ run (get_api_contacts_deals Sample.empty_body)
         [Resolved (JObj [("results",
                           JArr [JObj [("toObjectId", JStr "9001")]; JNull])])]
     = ([get_associations (JStr "7")],
        Returned
          {| statusCode := JNum 500;
             body :=
               JObj [("error",
                      JStr "Error fetching deals for specific contact from HubSpot");
                     ("details",
                      JStr "Cannot read properties of null (reading 'toObjectId')")] |},
        []).
Proof.
  split.
  - apply (proj1 (unusable_associations Sample.empty_body
                    Sample.string_results [Resolved Sample.created_deal]
                    eq_refl)).
    + reflexivity.
    + intros items H. discriminate H.
  - apply (proj2 (unusable_associations Sample.empty_body
                    (JObj [("results",
                            JArr [JObj [("toObjectId", JStr "9001")];
                                  JNull])])
                    [] eq_refl)
             [JObj [("toObjectId", JStr "9001")]] JNull []).
    + reflexivity.
    + repeat constructor.
    + reflexivity.
Defined.

(* ===================================================================== *)
(** ** One walk, written twice *)
(* ===================================================================== *)

(** X8: the route that lists the deals of a contact and the helper of the
    summary handler are the same walk.  However the calls settle, the
    route makes the calls of [getDealsForContactFromHubSpot] on the path
    parameter; it answers 200 with the helper's deals under [results], and
    answers what the helper throws as an upstream error. *)
Theorem list_deals_route_is_helper req script :
  run (get_api_contacts_deals req) script
  = match run (getDealsForContactFromHubSpot (contactId_param req)) script with
    | (cs, Returned deals, rest) =>
        (cs, Returned (res_json (JObj [("results", JArr deals)])), rest)
    | (cs, Threw err, rest) =>
        (cs,
         Returned
           (upstream_error err
              "Error fetching deals for specific contact from HubSpot"),
         rest)
    | (cs, Pending, rest) => (cs, Pending, rest)
    end.
Proof.
  unfold get_api_contacts_deals, getDealsForContactFromHubSpot.
  cbn [get nullish lift bind field]. fold (contactId_param req).
  rewrite run_try_catch.
  destruct script as [| o script]; [reflexivity |].
  cbn [await bind run].
  destruct o as [associations | err]; cbn [bind run];
    [| rewrite handleHubSpotError_spec; reflexivity].
  destruct (get associations "results") as [err | results]; cbn [lift bind run];
    [rewrite handleHubSpotError_spec; reflexivity |].
  rewrite !run_bind.
  destruct (run (toObjectIds (js_or results (JArr []))) script)
    as [[cs r] rest].
  destruct r as [ids | err |]; cbn [run]; rewrite ?app_nil_r;
    try (rewrite ?handleHubSpotError_spec; reflexivity).
  destruct ids as [| id ids]; cbn [run]; rewrite ?app_nil_r;
    [reflexivity |].
  rewrite run_bind.
  destruct (run (fetch_deals (id :: ids) []) rest) as [[cs' r'] rest'].
  destruct r' as [deals | err |]; cbn [run]; rewrite ?app_nil_r;
    rewrite ?handleHubSpotError_spec; reflexivity.
Qed.

(* ===================================================================== *)
(** ** Which deals are fetched *)
(* ===================================================================== *)

Lemma mapM_get_cases items k :
  mapM (fun a => lift (get a k)) items = Ret (map (fun a => field a k) items)
  \/ exists err, mapM (fun a => lift (get a k)) items = Throw err.
Proof.
  induction items as [| a items IH]; [left; reflexivity |].
  cbn [mapM map]. unfold get at 1 3.
  destruct (nullish a); cbn [lift bind]; [right; eexists; reflexivity |].
  destruct IH as [-> | [err ->]]; [left | right; eexists]; reflexivity.
Qed.

Lemma toObjectIds_cases v :
  (exists items, v = JArr items /\ toObjectIds v = Ret (deal_ids items))
  \/ exists err, toObjectIds v = Throw err.
Proof.
  destruct v as [| | | | | items |]; try (right; eexists; reflexivity).
  cbn [toObjectIds].
  destruct (mapM_get_cases items "toObjectId") as [-> | [err ->]].
  - left. exists items. split; reflexivity.
  - right. eexists. reflexivity.
Qed.

Lemma fetch_deals_calls ids :
  forall deals script,
    exists n,
      calls_of (run (fetch_deals ids deals) script)
      = map get_deal (firstn n ids).
Proof.
  induction ids as [| id ids IH]; intros deals script.
  - exists 0%nat. reflexivity.
  - cbn [fetch_deals await bind].
    destruct script as [| o rest]; [exists 1%nat; reflexivity |].
    cbn [run]. destruct o as [deal | err]; cbn [bind];
      [| exists 1%nat; reflexivity].
    unfold id_and_properties, top_or_body, get.
    destruct (nullish deal); cbn [lift bind]; [exists 1%nat; reflexivity |].
    destruct (truthy (field deal "id")), (truthy (field deal "properties"));
      cbn [lift bind];
      match goal with
      | |- context [fetch_deals ids ?acc] =>
          destruct (IH acc rest) as [n Hn]; exists (S n);
          unfold calls_of in *;
          destruct (run (fetch_deals ids acc) rest) as [[cs r] unread];
          cbn in *; now rewrite Hn
      end.
Qed.

(** The head of the walk, with whatever is done with the ids left open. *)
Lemma walk_calls {B : Type} contactId (leaf : list jsval -> prog B) script :
  (forall ids s,
     exists n, calls_of (run (leaf ids) s) = map get_deal (firstn n ids)) ->
  exists n,
    calls_of
      (run (associations <- await (get_associations contactId) ;;
            results <- lift (get associations "results") ;;
            dealIds <- toObjectIds (js_or results (JArr [])) ;;
            leaf dealIds) script)
    = get_associations contactId
        :: map get_deal (firstn n (listed_ids script)).
Proof.
  intros Hleaf.
  destruct script as [| o rest]; [exists 0%nat; reflexivity |].
  cbn [await bind run listed_ids].
  destruct o as [associations | err]; cbn [bind];
    [| exists 0%nat; reflexivity].
  unfold get. destruct (nullish associations); cbn [lift bind];
    [exists 0%nat; reflexivity |].
  set (results := field associations "results").
  destruct (toObjectIds_cases (js_or results (JArr [])))
    as [(items & Hitems & ->) | [err ->]]; cbn [bind];
    [| exists 0%nat; reflexivity].
  destruct (Hleaf (deal_ids items) rest) as [n Hn].
  unfold calls_of in *.
  destruct (run (leaf (deal_ids items)) rest) as [[cs r] unread].
  cbn in Hn |- *. subst cs.
  unfold js_or in Hitems. destruct (truthy results) eqn:Ht.
  - rewrite Hitems. exists n. reflexivity.
  - injection Hitems as <-. exists 0%nat.
    destruct n; reflexivity.
Qed.

(** X9: however the calls settle, and whatever shape the responses have,
    the walk fetches only deals that the association response lists, in
    the listed order and without skipping: after the association call the
    calls are the fetches of a prefix of the listed ids.  This holds for
    the route and for the helper of the summary handler. *)
Theorem deals_fetched_in_listed_order req contactId script :
  (exists n,
     calls_of (run (get_api_contacts_deals req) script)
     = get_associations (contactId_param req)
         :: map get_deal (firstn n (listed_ids script)))
  /\ (exists n,
        calls_of (run (getDealsForContactFromHubSpot contactId) script)
        = get_associations contactId
            :: map get_deal (firstn n (listed_ids script))).
Proof.
  split.
  - unfold get_api_contacts_deals. cbn [get nullish lift bind field].
    fold (contactId_param req). rewrite calls_of_try_catch.
    apply (walk_calls (contactId_param req)
             (fun dealIds =>
                match dealIds with
                | [] => Ret (res_json (JObj [("results", JArr [])]))
                | _ =>
                    deals <- fetch_deals dealIds [] ;;
                    Ret (res_json (JObj [("results", JArr deals)]))
                end)).
    intros ids s. destruct ids as [| id ids]; [exists 0%nat; reflexivity |].
    destruct (fetch_deals_calls (id :: ids) [] s) as [n Hn].
    exists n. rewrite calls_of_bind, Hn.
    destruct (run (fetch_deals (id :: ids) []) s) as [[cs r] unread].
    destruct r; cbn; apply app_nil_r.
  - unfold getDealsForContactFromHubSpot.
    apply (walk_calls contactId
             (fun dealIds =>
                match dealIds with
                | [] => Ret []
                | _ => fetch_deals dealIds []
                end)).
    intros ids s. destruct ids as [| id ids]; [exists 0%nat; reflexivity |].
    apply fetch_deals_calls.
Qed.

(* ===================================================================== *)
(** ** The calls of the create-deal route *)
(* ===================================================================== *)

(** X10: however the calls settle, [POST /api/deals] creates at most one
    deal and makes at most one association call, and it never associates
    without having created: its calls are none, the deal-create alone, or
    the deal-create followed by the association of the new deal's id with
    the request's contact, under the string that [String] converts the
    contact id to. *)
Theorem create_deal_calls req script :
  let created :=
    DealsCreate (JObj [("properties", field (body_of req) "dealProperties")])
  in
  let calls := calls_of (run (post_api_deals req) script) in
  calls = []
  \/ calls = [created]
  \/ exists dealId text,
       String_ (contactId_of req) = inr text
       /\ calls = [created;
                   DealsAssociationsCreate dealId (JStr "contacts")
                     (JStr text) associationSpec].
Proof.
  cbv zeta. unfold post_api_deals, contactId_of. read_body req.
  rewrite calls_of_try_catch.
  destruct (negb (truthy (field (body_of req) "dealProperties"))
            || negb (truthy (field (field (body_of req) "dealProperties")
                               "dealname"))); [left; reflexivity |].
  destruct (negb (truthy (field (body_of req) "contactId")));
    [left; reflexivity |].
  right. cbn [await bind].
  destruct script as [| o rest]; [left; reflexivity |].
  cbn [run]. destruct o as [cr | err]; cbn [bind]; [| left; reflexivity].
  unfold top_or_body, get.
  destruct (nullish cr); cbn [lift bind]; [left; reflexivity |].
  destruct (String_ (field (body_of req) "contactId")) as [thrown | text].
  - left.
    destruct (truthy (field cr "id")), (truthy (field cr "properties"));
      reflexivity.
  - right.
    destruct (truthy (field cr "id")), (truthy (field cr "properties"));
      cbn [lift bind]; eexists _, text; (split; [reflexivity |]);
      (destruct rest as [| o rest]; [reflexivity |]);
      cbn [run]; destruct o; reflexivity.
Qed.

(* ===================================================================== *)
(** ** The error response *)
(* ===================================================================== *)

(** X11: the response built by [handleHubSpotError] always has a truthy
    status and truthy details beside the context message, whatever was
    thrown.  When the thrown value carries none of [statusCode],
    [response] and [message] (a string, [null], a bare object) the answer
    is 500 with ["Unknown HubSpot error"]. *)
Theorem error_response_filled err context :
  let resp := handleHubSpotError err context in
  truthy (statusCode resp) = true
  /\ field (body resp) "error" = JStr context
  /\ truthy (field (body resp) "details") = true
  /\ (opt_field err "statusCode" = JUndefined ->
      opt_field err "response" = JUndefined ->
      opt_field err "message" = JUndefined ->
      resp = {| statusCode := JNum 500;
                body := JObj [("error", JStr context);
                              ("details", JStr "Unknown HubSpot error")] |}).
Proof.
  cbv zeta. rewrite handleHubSpotError_spec. unfold upstream_error.
  cbn [statusCode body field lookup String.eqb Ascii.eqb Bool.eqb].
  repeat split.
  - destruct (truthy (opt_field err "statusCode")) eqn:H; [exact H |].
    reflexivity.
  - destruct (truthy (opt_field (opt_field err "response") "body")) eqn:Hb;
      [exact Hb |].
    destruct (truthy (opt_field err "message")) eqn:Hm; [exact Hm |].
    reflexivity.
  - intros Hs Hr Hm. rewrite Hs, Hr, Hm. reflexivity.
Qed.

Lemma error_response_filled_witness :
  handleHubSpotError (JStr "socket hang up") "Error fetching deals from HubSpot"
  = {| statusCode := JNum 500;
       body := JObj [("error", JStr "Error fetching deals from HubSpot");
                     ("details", JStr "Unknown HubSpot error")] |}.
Proof.
  exact (proj2 (proj2 (proj2 (error_response_filled (JStr "socket hang up")
                                "Error fetching deals from HubSpot")))
           eq_refl eq_refl eq_refl).
Defined.

(* ===================================================================== *)
(** ** Start-up and the summary route *)
(* ===================================================================== *)

(** X12: the server listens only when [HUBSPOT_ACCESS_TOKEN] is set and
    not empty, on [PORT] or else on 3001.  An [OPENAI_API_KEY] that is
    unset or empty switches the summary route off, so that a request with
    a contact id is answered 500 without any call; with a key the route
    starts by fetching the contact. *)
Theorem boot_decides_summary e PORT openai req script :
  boot_server e = Listening PORT openai ->
  truthy (contactId_of req) = true ->
  truthy (env_value (env_HUBSPOT_ACCESS_TOKEN e)) = true
  /\ PORT = (if truthy (env_value (env_PORT e))
             then env_value (env_PORT e) else JNum 3001)
  /\ (truthy (env_value (env_OPENAI_API_KEY e)) = false ->
      run (post_api_ai_customer_summary openai req) script
      = ([],
         Returned
           {| statusCode := JNum 500;
              body :=
                JObj [("error",
                       JStr "AI not configured. Set OPENAI_API_KEY in your .env to enable this endpoint.")] |},
         script))
  /\ (truthy (env_value (env_OPENAI_API_KEY e)) = true ->
      exists more,
        calls_of (run (post_api_ai_customer_summary openai req) script)
        = get_contact (contactId_of req) :: more).
Proof.
  unfold boot_server. intros Hboot Hc.
  destruct (truthy (env_value (env_HUBSPOT_ACCESS_TOKEN e))) eqn:Htoken;
    cbn [negb] in Hboot; [| discriminate Hboot].
  injection Hboot as <- <-.
  split; [reflexivity |]. split; [reflexivity |].
  unfold openai_of_env, env_value. destruct (env_OPENAI_API_KEY e) as [key |].
  - cbn [truthy]. destruct (String.eqb key EmptyString); cbn [negb]; split.
    + intros _. now apply summary_not_configured.
    + discriminate.
    + discriminate.
    + intros _. enter_summary req Hc.
      unfold getContactFromHubSpot. cbn [await bind].
      destruct script as [| o rest]; [eexists; reflexivity |].
      cbn [run].
      match goal with
      | |- context [run ?p rest] => destruct (run p rest) as [[cs r] unread]
      end.
      destruct r as [contact | err |]; cbn [run].
      * match goal with
        | |- context [run ?p unread] =>
            destruct (run p unread) as [[cs' r'] unread']
        end.
        destruct r'; eexists; reflexivity.
      * eexists; reflexivity.
      * eexists; reflexivity.
  - cbn [truthy]. split; [| discriminate].
    intros _. now apply summary_not_configured.
Qed.

Lemma boot_decides_summary_witness :
  run (post_api_ai_customer_summary
         (openai_of_env (env_OPENAI_API_KEY Sample.env_without_key))
         Sample.summary_of_contact)
      [Resolved Sample.created_contact]
  = ([],
     Returned
       {| statusCode := JNum 500;
          body :=
            JObj [("error",
                   JStr "AI not configured. Set OPENAI_API_KEY in your .env to enable this endpoint.")] |},
     [Resolved Sample.created_contact])
  /\ exists more,
       calls_of (run (post_api_ai_customer_summary
                        (openai_of_env (env_OPENAI_API_KEY Sample.env_complete))
                        Sample.summary_of_contact)
                   [Rejected Sample.not_found])
       = get_contact (JStr "7") :: more.
Proof.
  split.
  - exact (proj1 (proj2 (proj2 (boot_decides_summary Sample.env_without_key
                                  (JNum 3001) None Sample.summary_of_contact
                                  [Resolved Sample.created_contact]
                                  eq_refl eq_refl)))
             eq_refl).
  - exact (proj2 (proj2 (proj2 (boot_decides_summary Sample.env_complete
                                  (JStr "8080")
                                  (Some (NewOpenAI "sk-test"))
                                  Sample.summary_of_contact
                                  [Rejected Sample.not_found]
                                  eq_refl eq_refl)))
             eq_refl).
Defined.
